(** * Pollination REST API guide: client wrapper and orchestration script

    A shallow embedding of [getting-started/rest-api/pollination.py],
    [getting-started/rest-api/main.py] and [getting-started/get_user.py].

    Python values are a small inductive type, exceptions are an error
    result, and everything the scripts do to the outside world (HTTP
    requests, sleeping, printing, file access) is recorded in a trace kept
    in an explicit program state.  The replies of the remote service are
    an oracle: a list of responses consumed one per request. *)

From stdpp Require Import base option list strings gmap pretty.
From Stdlib Require Import ZArith Lia Ascii String.

Set Warnings "-register-all".
#[local] Arguments String.append : simpl nomatch.

Open Scope Z_scope.

(** ** Python values *)

(** [queenbee.io.artifact_source.ProjectFolder], as [main.py] builds it. *)
Record ProjectFolder := { path : string }.

(** [queenbee.io.inputs.job.JobPathArgument], as [main.py] builds it. *)
Record JobPathArgument := { arg_name : string; arg_source : ProjectFolder }.

(** The values the scripts handle: what [json()] can return, plus the
    foreign queenbee object that a [Job] payload holds before it is
    serialised.  A [dict] keeps its insertion order. *)
Inductive value :=
  | VNone
  | VBool (b : bool)
  | VInt (n : Z)
  | VStr (s : string)
  | VList (l : list value)
  | VDict (d : list (string * value))
  | VArg (a : JobPathArgument).

(** ** Exceptions and results *)

Inductive exn :=
  | KeyError (key : string)
  | IndexError
  | TypeError
  | ValueError
  | AttributeError (attr : string)
  | FileNotFoundError (name : string)
  | JSONDecodeError
  | TransportError
  | HTTPStatusError (code : Z)
  | SystemExit
  | Unmodelled.

Inductive outcome (A : Type) :=
  | Ok (a : A)
  | Raise (e : exn).
Arguments Ok {A} a.
Arguments Raise {A} e.

Definition raises {A} (o : outcome A) : bool :=
  match o with Ok _ => false | Raise _ => true end.

#[global] Instance outcome_ret : MRet outcome := @Ok.
#[global] Instance outcome_bind : MBind outcome := fun A B f o =>
  match o with Ok a => f a | Raise e => Raise e end.

(** ** Subscripts, iteration, comparison and formatting of values *)

Fixpoint assoc {A} (k : string) (d : list (string * A)) : option A :=
  match d with
  | [] => None
  | (k', v) :: d' => if String.eqb k k' then Some v else assoc k d'
  end.

(** [d[k] = v] on a dict: an existing key keeps its place. *)
Fixpoint assoc_set {A} (k : string) (v : A) (d : list (string * A)) : list (string * A) :=
  match d with
  | [] => [(k, v)]
  | (k', v') :: d' =>
      if String.eqb k k' then (k', v) :: d' else (k', v') :: assoc_set k v d'
  end.

(** [v[k]] for a string key [k]. *)
Definition getitem (v : value) (k : string) : outcome value :=
  match v with
  | VDict d => match assoc k d with Some x => Ok x | None => Raise (KeyError k) end
  | _ => Raise TypeError
  end.

(** [v[0]]. *)
Definition getitem0 (v : value) : outcome value :=
  match v with
  | VList (x :: _) => Ok x
  | VList [] => Raise IndexError
  | VStr (String c _) => Ok (VStr (String c ""))
  | VStr "" => Raise IndexError
  | VDict _ => Raise (KeyError "0")
  | _ => Raise TypeError
  end.

Fixpoint chars (s : string) : list value :=
  match s with
  | "" => []
  | String c r => VStr (String c "") :: chars r
  end.

(** The items a [for] loop over [v] visits. *)
Definition iterate (v : value) : outcome (list value) :=
  match v with
  | VList l => Ok l
  | VDict d => Ok (map (fun kv => VStr (fst kv)) d)
  | VStr s => Ok (chars s)
  | _ => Raise TypeError
  end.

(** [v == s] for a string literal [s]. *)
Definition eq_str (v : value) (s : string) : bool :=
  match v with VStr t => String.eqb t s | _ => false end.

(** [format(v, '')], which is [str(v)]; the text of a container is not
    modelled. *)
Definition format (v : value) : outcome string :=
  match v with
  | VStr s => Ok s
  | VInt n => Ok (pretty n)
  | VBool true => Ok "True"
  | VBool false => Ok "False"
  | VNone => Ok "None"
  | _ => Raise Unmodelled
  end.

(** ** [str.format_map] *)

Definition is_digit (c : ascii) : bool :=
  let n := nat_of_ascii c in (Nat.leb 48 n && Nat.leb n 57)%bool.

Fixpoint all_digits (s : string) : bool :=
  match s with
  | "" => true
  | String c r => (is_digit c && all_digits r)%bool
  end.

(** Characters that start a conversion, a format specification, a nested
    field, or an attribute or index access inside a replacement field. *)
Definition field_syntax (c : ascii) : bool :=
  existsb (Ascii.eqb c) ["{"; "!"; ":"; "."; "["]%char.

(** The value of the replacement field [name]: a name that is empty or a
    number is a positional field, which [format_map] refuses. *)
Definition field_value (d : list (string * value)) (name : string) : outcome value :=
  if all_digits name then Raise ValueError
  else match assoc name d with
       | Some v => Ok v
       | None => Raise (KeyError name)
       end.

(** One left-to-right pass over the template.  [cur] is [None] in literal
    text and [Some n] inside a replacement field whose name so far is [n].
    Doubled braces are literal braces.  Conversions, format specifications,
    attribute and index access inside a field are not modelled. *)
Fixpoint format_go (d : list (string * value)) (s : string) (cur : option string)
  : outcome string :=
  match cur, s with
  | None, "" => Ok ""
  | None, String "{" (String "{" r) => t ← format_go d r None; Ok (String "{" t)
  | None, String "{" r => format_go d r (Some "")
  | None, String "}" (String "}" r) => t ← format_go d r None; Ok (String "}" t)
  | None, String "}" _ => Raise ValueError
  | None, String c r => t ← format_go d r None; Ok (String c t)
  | Some _, "" => Raise ValueError
  | Some n, String "}" r =>
      v ← field_value d n; x ← format v; t ← format_go d r None; Ok (x +:+ t)
  | Some n, String c r =>
      if field_syntax c then Raise Unmodelled
      else format_go d r (Some (n +:+ String c ""))
  end.

Definition format_map (template : string) (d : list (string * value)) : outcome string :=
  format_go d template None.

(** ** Library interfaces

    Two functions of the libraries the scripts import decide what the
    wrapper returns; they are interfaces here, with the libraries' own
    behaviour as instances further down. *)

(** queenbee's [JobPathArgument.to_dict]. *)
Class Queenbee := arg_to_dict : JobPathArgument → value.

(** ** Payloads *)

Module Payload.

(** What [dataclasses.asdict] does below the top level: lists and dicts
    are rebuilt, anything else is copied. *)
Fixpoint asdict_inner (v : value) : value :=
  match v with
  | VList l => VList (map asdict_inner l)
  | VDict d => VDict (map (fun kv => (fst kv, asdict_inner (snd kv))) d)
  | _ => v
  end.

(** A dataclass: its fields in declaration order, each with the value
    the instance holds. *)
Class Dataclass (A : Type) := fields : A → list (string * value).

Definition asdict {A} `{Dataclass A} (self : A) : value :=
  VDict (map (fun kv => (fst kv, asdict_inner (snd kv))) (fields self)).

Record Create := { name : string; description : string; public : bool }.
Record RecipeFilter := { rf_owner : string; rf_name : string; rf_tag : string }.
Record Artifact := { key : string }.
Record Job := { source : string; arguments : list (list JobPathArgument) }.

#[global] Instance Create_dataclass : Dataclass Create := fun self =>
  [("name", VStr (name self)); ("description", VStr (description self));
   ("public", VBool (public self))].
#[global] Instance RecipeFilter_dataclass : Dataclass RecipeFilter := fun self =>
  [("owner", VStr (rf_owner self)); ("name", VStr (rf_name self));
   ("tag", VStr (rf_tag self))].
#[global] Instance Artifact_dataclass : Dataclass Artifact := fun self =>
  [("key", VStr (key self))].
#[global] Instance Job_dataclass : Dataclass Job := fun self =>
  [("source", VStr (source self));
   ("arguments", VList (map (fun g => VList (map VArg g)) (arguments self)))].

(** [Base.to_dict]. *)
Definition to_dict {A} `{Dataclass A} (self : A) : value := asdict self.

(** [d['arguments'] = args] *)
Definition setitem (d : value) (k : string) (v : value) : value :=
  match d with VDict l => VDict (assoc_set k v l) | _ => d end.

Section Job.
Context `{Queenbee}.

(** The two nested [for] loops of [Job.to_dict], appending to [g] and
    to [args]. *)
Fixpoint group_loop (group : list JobPathArgument) (g : list value) : list value :=
  match group with
  | [] => g
  | arg :: rest => group_loop rest (g ++ [arg_to_dict arg])
  end.

Fixpoint args_loop (groups : list (list JobPathArgument)) (args : list value)
  : list value :=
  match groups with
  | [] => args
  | group :: rest => args_loop rest (args ++ [VList (group_loop group [])])
  end.

Definition Job_to_dict (self : Job) : value :=
  let d := asdict self in
  let args := args_loop (arguments self) [] in
  setitem d "arguments" (VList args).
End Job.

End Payload.

(** ** The outside world *)

Record response := {
  status_code : Z;
  content : string;
  (** what [json()] decodes the content to, if it is JSON at all *)
  json_body : option value
}.

(** httpx's [Response.raise_for_status]; [None] is Python's [None]. *)
Class Httpx := raise_for_status : response → outcome (option response).

Inductive http_method := GET | POST.

(** A request leaves either through the client object ([self.get],
    [self.post]) or through the module-level [httpx.post], which builds a
    client of its own for the one call. *)
Inductive sender := ViaClient | Standalone.

Inductive payload :=
  | NoBody
  | Json (v : value)
  | Multipart (data : value) (upload : list (string * (string * string))).

(** [hdrs] holds the headers the application configured; the defaults
    that httpx adds to every request are left out. *)
Record request := {
  via : sender;
  meth : http_method;
  base : string;
  target : string;
  hdrs : gmap string string;
  body : payload
}.

Inductive printable :=
  | PValue (v : value)
  | PResponse (r : response).

Inductive event :=
  | EvRequest (r : request)
  | EvOpen (file : string)
  | EvRetrieve (url file : string)
  | EvSleep (seconds : Z)
  | EvPrint (p : printable).

(** The attributes of the client object; [organization] is absent until
    [PollinationClient.__init__] sets it.  [headers] is keyed by the name
    as spelled; the scripts spell the one name they use in lowercase. *)
Record client := {
  base_url : string;
  headers : gmap string string;
  organization : option string
}.

Record state := {
  self : client;
  environ : gmap string string;
  (** the replies still to come, one per request *)
  net : list response;
  files : gmap string string;
  trace : list event
}.

Definition set_self (c : client) (s : state) : state :=
  {| self := c; environ := environ s; net := net s; files := files s; trace := trace s |}.
Definition set_net (n : list response) (s : state) : state :=
  {| self := self s; environ := environ s; net := n; files := files s; trace := trace s |}.
Definition set_files (f : gmap string string) (s : state) : state :=
  {| self := self s; environ := environ s; net := net s; files := f; trace := trace s |}.
Definition set_trace (t : list event) (s : state) : state :=
  {| self := self s; environ := environ s; net := net s; files := files s; trace := t |}.

(** ** The program monad: state and exceptions *)

Definition M (A : Type) : Type := state → outcome A * state.

#[global] Instance M_ret : MRet M := fun A a s => (Ok a, s).
#[global] Instance M_bind : MBind M := fun A B f m s =>
  match m s with
  | (Ok a, s') => f a s'
  | (Raise e, s') => (Raise e, s')
  end.

Definition raise {A} (e : exn) : M A := fun s => (Raise e, s).
Definition lift {A} (o : outcome A) : M A := fun s => (o, s).
Definition gets {A} (f : state → A) : M A := fun s => (Ok (f s), s).
Definition modify (f : state → state) : M unit := fun s => (Ok tt, f s).
Definition emit (e : event) : M unit := modify (fun s => set_trace (trace s ++ [e]) s).

(** [os.environ[k]] *)
Definition environ_get (k : string) : M string :=
  e ← gets environ;
  match e !! k with Some v => mret v | None => raise (KeyError k) end.

(** The reply to the request just sent. *)
Definition receive : M response := fun s =>
  match net s with
  | r :: rest => (Ok r, set_net rest s)
  | [] => (Raise TransportError, s)
  end.

Definition print (p : printable) : M unit := emit (EvPrint p).
Definition print_str (s : string) : M unit := print (PValue (VStr s)).
Definition sleep (seconds : Z) : M unit := emit (EvSleep seconds).
Definition json (res : response) : M value :=
  match json_body res with Some v => mret v | None => raise JSONDecodeError end.

(** ** [httpx.Client] *)

Record kwargs := { kw_headers : option (gmap string string); kw_base_url : option string }.

Definition no_kwargs : kwargs := {| kw_headers := None; kw_base_url := None |}.

(** [httpx.Client.__init__], for the two keyword arguments the scripts
    could pass. *)
Definition Client_init (kw : kwargs) : M unit :=
  modify (set_self {| base_url := default "" (kw_base_url kw);
                      headers := default ∅ (kw_headers kw);
                      organization := None |}).

Definition Client_request (m : http_method) (endpoint : string) (b : payload) : M response :=
  c ← gets self;
  emit (EvRequest {| via := ViaClient; meth := m; base := base_url c;
                     target := endpoint; hdrs := headers c; body := b |});;
  receive.

Definition Client_get (endpoint : string) : M response := Client_request GET endpoint NoBody.
Definition Client_post (endpoint : string) (j : value) : M response :=
  Client_request POST endpoint (Json j).

(** The module-level [httpx.post(url=..., data=..., files=...)]. *)
Definition httpx_post (url : string) (data : value)
    (upload : list (string * (string * string))) : M response :=
  emit (EvRequest {| via := Standalone; meth := POST; base := ""; target := url;
                     hdrs := ∅; body := Multipart data upload |});;
  receive.

(** [Payload.Artifact.upload] *)
Definition Artifact_upload (self_ : Payload.Artifact) (url fields : value) : M response :=
  fs ← gets files;
  match fs !! Payload.key self_ with
  | None => raise (FileNotFoundError (Payload.key self_))
  | Some fp =>
      emit (EvOpen (Payload.key self_));;
      match url with
      | VStr u => httpx_post u fields [("file", (Payload.key self_, fp))]
      | _ => raise TypeError
      end
  end.

(** ** [PollinationClient] *)

Module PollinationClient.

Module Routes.
Definition var_name := "/{name}".
Definition var_owner := "/{owner}".
Definition var_job_id := "/{job_id}".
Definition var_run_id := "/{run_id}".
Definition var_output_name := "/{output_name}".

Definition artifacts := "/artifacts".
Definition downloads := "/downloads".
Definition filters := "/filters".
Definition jobs := "/jobs".
Definition outputs := "/outputs".
Definition recipes := "/recipes".
Definition runs := "/runs".
Definition user := "/user".

Definition accounts := "/accounts".
Definition accounts_name := accounts +:+ var_name.

Definition projects := "/projects".
Definition project_create := projects +:+ var_owner.
Definition project_add_recipe :=
  projects +:+ var_owner +:+ var_name +:+ recipes +:+ filters.
Definition project_add_artifact := projects +:+ var_owner +:+ var_name +:+ artifacts.
Definition project_jobs := projects +:+ var_owner +:+ var_name +:+ jobs.
Definition project_job_by_id := project_jobs +:+ var_job_id.
Definition project_job_artifacts := project_job_by_id +:+ artifacts.
Definition project_job_artifacts_download := project_job_artifacts +:+ downloads.
Definition project_runs := projects +:+ var_owner +:+ var_name +:+ runs.
Definition project_run_output :=
  project_runs +:+ var_run_id +:+ outputs +:+ var_output_name.
End Routes.

Definition api_url := "https://api.pollination.cloud".
Definition token_header := "x-pollination-token".

Definition set_base_url (u : string) (c : client) : client :=
  {| base_url := u; headers := headers c; organization := organization c |}.
Definition set_header (k v : string) (c : client) : client :=
  {| base_url := base_url c; headers := <[k := v]> (headers c);
     organization := organization c |}.
Definition set_organization (o : string) (c : client) : client :=
  {| base_url := base_url c; headers := headers c; organization := Some o |}.

Definition update_self (f : client → client) : M unit :=
  modify (fun s => set_self (f (self s)) s).

Definition init (kw : kwargs) : M unit :=
  Client_init kw;;
  update_self (set_base_url api_url);;
  api_key ← environ_get "POLLINATION_API_KEY";
  update_self (set_header token_header api_key);;
  org ← environ_get "POLLINATION_ORG";
  update_self (set_organization org).

(** [self.organization] *)
Definition self_organization : M value :=
  c ← gets self;
  match organization c with
  | Some o => mret (VStr o)
  | None => raise (AttributeError "organization")
  end.

(** The endpoint each method formats, before the request is sent. *)

Definition org_endpoint : M string :=
  org ← self_organization;
  lift (format_map Routes.accounts_name [("name", org)]).

Definition create_project_endpoint : M string :=
  org ← self_organization;
  lift (format_map Routes.project_create [("owner", org)]).

Definition add_recipe_to_project_endpoint (project_name : value) : M string :=
  org ← self_organization;
  lift (format_map Routes.project_add_recipe [("owner", org); ("name", project_name)]).

Definition add_file_to_project_endpoint (project_name : value) : M string :=
  org ← self_organization;
  lift (format_map Routes.project_add_artifact [("owner", org); ("name", project_name)]).

Definition create_job_endpoint (project_name : value) : M string :=
  org ← self_organization;
  lift (format_map Routes.project_jobs [("owner", org); ("name", project_name)]).

Definition get_job_endpoint (project_name job_id : value) : M string :=
  org ← self_organization;
  lift (format_map Routes.project_job_by_id
          [("owner", org); ("name", project_name); ("job_id", job_id)]).

Definition list_jobs_endpoint (project_name : value) : M string :=
  org ← self_organization;
  lift (format_map Routes.project_jobs [("owner", org); ("name", project_name)]).

Definition list_job_artifacts_endpoint (project_name job_id : value) : M string :=
  org ← self_organization;
  lift (format_map Routes.project_job_artifacts
          [("owner", org); ("name", project_name); ("job_id", job_id)]).

Definition get_job_artifact_link_endpoint (project_name job_id artifact_path : value)
  : M string :=
  org ← self_organization;
  endpoint ← lift (format_map Routes.project_job_artifacts_download
                     [("owner", org); ("name", project_name); ("job_id", job_id)]);
  p ← lift (format artifact_path);
  mret (endpoint +:+ "?path=" +:+ p).

Definition get_runs_endpoint (project_name job_id : value) : M string :=
  org ← self_organization;
  endpoint ← lift (format_map Routes.project_runs
                     [("owner", org); ("name", project_name)]);
  j ← lift (format job_id);
  mret (endpoint +:+ "?job_id=" +:+ j).

Definition get_run_output_endpoint (project_name run_id output_name : value) : M string :=
  org ← self_organization;
  lift (format_map Routes.project_run_output
          [("owner", org); ("name", project_name); ("run_id", run_id);
           ("output_name", output_name)]).

(** The endpoint methods. *)

Definition get_organization : M response :=
  endpoint ← org_endpoint; Client_get endpoint.

Definition create_project (body : Payload.Create) : M response :=
  endpoint ← create_project_endpoint;
  Client_post endpoint (Payload.to_dict body).

Definition add_recipe_to_project (project_name : value) (body : Payload.RecipeFilter)
  : M response :=
  endpoint ← add_recipe_to_project_endpoint project_name;
  Client_post endpoint (Payload.to_dict body).

Definition add_file_to_project `{Httpx} (project_name : value) (body : Payload.Artifact)
  : M (option response) :=
  endpoint ← add_file_to_project_endpoint project_name;
  res ← Client_post endpoint (Payload.to_dict body);
  res_body ← json res;
  url ← lift (getitem res_body "url");
  fields ← lift (getitem res_body "fields");
  res ← Artifact_upload body url fields;
  if status_code res =? 204 then mret (Some res) else lift (raise_for_status res).

Definition create_job `{Queenbee} (project_name : value) (body : Payload.Job) : M response :=
  endpoint ← create_job_endpoint project_name;
  Client_post endpoint (Payload.Job_to_dict body).

Definition get_job (project_name job_id : value) : M response :=
  endpoint ← get_job_endpoint project_name job_id; Client_get endpoint.

Definition list_jobs (project_name : value) : M response :=
  endpoint ← list_jobs_endpoint project_name; Client_get endpoint.

Definition list_job_artifacts (project_name job_id : value) : M response :=
  endpoint ← list_job_artifacts_endpoint project_name job_id; Client_get endpoint.

Definition get_job_artifact_link (project_name job_id artifact_path : value) : M response :=
  endpoint ← get_job_artifact_link_endpoint project_name job_id artifact_path;
  Client_get endpoint.

Definition get_runs (project_name job_id : value) : M response :=
  endpoint ← get_runs_endpoint project_name job_id; Client_get endpoint.

Definition get_run_output (project_name run_id output_name : value) : M response :=
  endpoint ← get_run_output_endpoint project_name run_id output_name;
  Client_get endpoint.

End PollinationClient.

(** ** [urllib.request.urlretrieve] *)

Definition in_range (lo hi : nat) (c : ascii) : bool :=
  let n := nat_of_ascii c in (Nat.leb lo n && Nat.leb n hi)%bool.

Definition is_alnum (c : ascii) : bool :=
  in_range 48 57 c || in_range 65 90 c || in_range 97 122 c.

Fixpoint all_chars (f : ascii → bool) (s : string) : bool :=
  match s with
  | "" => true
  | String c r => f c && all_chars f r
  end.

(** [str.lower], on ASCII. *)
Definition lower_char (c : ascii) : ascii :=
  if in_range 65 90 c then ascii_of_nat (nat_of_ascii c + 32) else c.

Fixpoint lower (s : string) : string :=
  match s with
  | "" => ""
  | String c r => String (lower_char c) (lower r)
  end.

(** urllib's [_splittype]: the scheme, in lowercase, and what follows its
    colon.  A URL with a slash before its first colon, with no colon, or
    with nothing before the colon has no scheme. *)
Fixpoint splittype_go (s scheme : string) : option (string * string) :=
  match s with
  | "" => None
  | String c r =>
      if Ascii.eqb c ":" then
        match scheme with
        | "" => None
        | _ => Some (lower scheme, r)
        end
      else if Ascii.eqb c "/" then None
      else splittype_go r (scheme +:+ String c "")
  end.

Definition splittype (url : string) : option (string * string) := splittype_go url "".

(** A host name made of labels of letters, digits and hyphens, each of 1
    to 63 characters, separated by single dots; [len] is the length of the
    label being read. *)
Fixpoint labels (s : string) (len : nat) : bool :=
  match s with
  | "" => Nat.leb 1 len && Nat.leb len 63
  | String c r =>
      if Ascii.eqb c "." then Nat.leb 1 len && Nat.leb len 63 && labels r 0
      else (is_alnum c || Ascii.eqb c "-") && labels r (S len)
  end.

(** The part of [s] before its first slash, and the rest. *)
Fixpoint split_host (s : string) : string * string :=
  match s with
  | "" => ("", "")
  | String c r =>
      if Ascii.eqb c "/" then ("", s)
      else let (h, t) := split_host r in (String c h, t)
  end.

(** The addresses the model fetches: [http] or [https], two slashes, a
    host name of at most 253 characters, and then nothing or a path of
    visible ASCII characters.  Every other address that has a scheme (other
    schemes, ports, credentials, blanks, brackets) is left unmodelled. *)
Definition http_address (scheme rest : string) : bool :=
  (String.eqb scheme "http" || String.eqb scheme "https") &&
  match rest with
  | String "/" (String "/" r) =>
      let (host, path) := split_host r in
      labels host 0 && Nat.leb (String.length host) 253 && all_chars (in_range 33 126) path
  | _ => false
  end.

(** The file names the model writes: portable names (letters, digits,
    dots, underscores, hyphens; at most 255 characters; not [.] or [..]).
    Names with a directory part or other characters are left unmodelled. *)
Definition portable_name (name : string) : bool :=
  negb (String.eqb name "") && negb (String.eqb name ".") && negb (String.eqb name "..")
  && Nat.leb (String.length name) 255
  && all_chars (fun c => is_alnum c || Ascii.eqb c "." || Ascii.eqb c "_"
                         || Ascii.eqb c "-") name.

(** Fetches [url] and writes what it receives to [filename].  A URL
    without a scheme raises [ValueError] before anything is fetched.  The
    reply is the one urllib ends up with, read in full; it raises for a
    status outside 2xx.  The file is opened after the fetch, in a working
    directory taken to be writable and to hold no directory of that
    name. *)
Definition urlretrieve (url : value) (filename : string) : M unit :=
  match url with
  | VStr u =>
      match splittype u with
      | None => raise ValueError
      | Some (scheme, rest) =>
          if http_address scheme rest then
            emit (EvRetrieve u filename);;
            r ← receive;
            if (200 <=? status_code r) && (status_code r <? 300)
            then
              if portable_name filename
              then modify (fun s => set_files (<[filename := content r]> (files s)) s)
              else raise Unmodelled
            else raise (HTTPStatusError (status_code r))
          else raise Unmodelled
      end
  | _ => raise TypeError
  end.

(** [sep.join(l)] *)
Fixpoint join (sep : string) (l : list string) : string :=
  match l with
  | [] => ""
  | [x] => x
  | x :: rest => x +:+ sep +:+ join sep rest
  end.

(** ** The orchestration script, [main.py] *)

Module Main.
Import PollinationClient.

Section Script.
Context `{Httpx} `{Queenbee}.

Definition project : Payload.Create :=
  {| Payload.name := "good-project";
     Payload.description := "A very good project";
     Payload.public := false |}.

Definition recipe_filter : Payload.RecipeFilter :=
  {| Payload.rf_owner := "ladybug-tools";
     Payload.rf_name := "daylight-factor";
     Payload.rf_tag := "0.5.6" |}.

Definition file_names : list string := ["model1.hbjson"; "model2.hbjson"].

Definition show (res : option response) : printable :=
  match res with Some r => PResponse r | None => PValue VNone end.

(** [for name in file_names: ...], appending to [arguments]. *)
Fixpoint upload_loop (names : list string) (arguments : list (list JobPathArgument))
  : M (list (list JobPathArgument)) :=
  match names with
  | [] => mret arguments
  | name :: rest =>
      let artifact := {| Payload.key := name |} in
      res ← add_file_to_project (VStr (Payload.name project)) artifact;
      print (show res);;
      let project_artifact := {| path := Payload.key artifact |} in
      let model_argument :=
        {| arg_name := "model"; arg_source := project_artifact |} in
      upload_loop rest (arguments ++ [[model_argument]])
  end.

Definition wait_sec : Z := 60.

(** [while remaining_polls > 0: ...]: [break] leaves the loop, [exit()]
    raises [SystemExit]. *)
Fixpoint poll_loop (project_name job_id : value) (remaining_polls : nat) : M unit :=
  match remaining_polls with
  | O => mret tt
  | S remaining =>
      res ← get_job project_name job_id;
      body ← json res;
      st ← lift (getitem body "status");
      job_status ← lift (getitem st "status");
      if eq_str job_status "Completed" then print_str "Job finished!"
      else if eq_str job_status "Cancelled" then
        print_str "Job cancelled!";; raise SystemExit
      else
        sleep wait_sec;;
        print_str (pretty remaining +:+ " attempts remaining");;
        poll_loop project_name job_id remaining
  end.

(** The body of [for run in body['resources']]. *)
Definition download_run (project_name run : value) : M unit :=
  run_id ← lift (getitem run "id");
  st ← lift (getitem run "status");
  outs ← lift (getitem st "outputs");
  out ← lift (getitem0 outs);
  run_output_name ← lift (getitem out "name");
  res ← get_run_output project_name run_id run_output_name;
  url ← json res;
  a ← lift (format run_id);
  b ← lift (format run_output_name);
  urlretrieve url (a +:+ "-" +:+ b +:+ ".zip").

Fixpoint for_each (runs : list value) (f : value → M unit) : M unit :=
  match runs with
  | [] => mret tt
  | run :: rest => f run;; for_each rest f
  end.

(** Everything after the polling loop. *)
Definition download_outputs (project_name job_id : value) : M unit :=
  res ← get_runs project_name job_id;
  body ← json res;
  resources ← lift (getitem body "resources");
  runs ← lift (iterate resources);
  for_each runs (download_run project_name).

Definition remaining_polls : nat := 5.

(** Polling and what follows it. *)
Definition await_job (project_name job_id : value) : M unit :=
  print_str ("Waiting up to " +:+ pretty (Z.of_nat remaining_polls * wait_sec)
             +:+ " sec for job to finish...");;
  poll_loop project_name job_id remaining_polls;;
  download_outputs project_name job_id.

Definition main : M unit :=
  init no_kwargs;;
  res ← create_project project;
  j ← json res;
  print (PValue j);;
  res ← add_recipe_to_project (VStr (Payload.name project)) recipe_filter;
  j ← json res;
  print (PValue j);;
  arguments ← upload_loop file_names [];
  c ← gets self;
  let recipe_source_url :=
    join "/" [base_url c; "registries"; Payload.rf_owner recipe_filter; "recipe";
              Payload.rf_name recipe_filter; Payload.rf_tag recipe_filter] in
  let job := {| Payload.source := recipe_source_url;
                Payload.arguments := arguments |} in
  res ← create_job (VStr (Payload.name project)) job;
  j ← json res;
  print (PValue j);;
  j ← json res;
  job_id ← lift (getitem j "id");
  await_job (VStr (Payload.name project)) job_id.
End Script.
End Main.

(** ** The user-info script, [get_user.py] *)

Module GetUser.
Module Const.
Definition url := "https://api.pollination.cloud".
Module Endpoints.
Definition user := "/user".
End Endpoints.
End Const.

Definition script : M unit :=
  api_key ← environ_get "POLLINATION_API_KEY";
  let headers := {[ "x-pollination-token" := api_key ]} in
  Client_init {| kw_headers := Some headers; kw_base_url := Some Const.url |};;
  res ← Client_get Const.Endpoints.user;
  j ← json res;
  print (PValue j).
End GetUser.

(** ** Library behaviour

    httpx has shipped two behaviours of [raise_for_status]: older releases
    raise for 4xx and 5xx codes and return [None]; current ones raise for
    every code outside 2xx and return the response. *)

Definition raise_for_status_legacy : Httpx := fun r =>
  if (400 <=? status_code r) && (status_code r <? 600)
  then Raise (HTTPStatusError (status_code r)) else Ok None.

Definition raise_for_status_current : Httpx := fun r =>
  if (200 <=? status_code r) && (status_code r <? 300)
  then Ok (Some r) else Raise (HTTPStatusError (status_code r)).

(** An error status, for which every release of httpx raises. *)
Definition is_error (code : Z) : bool := (400 <=? code) && (code <? 600).

(** A serialisation of job arguments in the shape queenbee produces. *)
Definition queenbee_to_dict : Queenbee := fun a =>
  VDict [("type", VStr "JobPathArgument"); ("name", VStr (arg_name a));
         ("source", VDict [("type", VStr "ProjectFolder");
                           ("path", VStr (path (arg_source a)))])].

(** ** Specification vocabulary *)

(** *** Route templates

    A template read as its author wrote it: stretches of literal text and
    named parameters. *)

Inductive piece :=
  | Text (s : string)
  | Param (name : string).

Fixpoint template (ps : list piece) : string :=
  match ps with
  | [] => ""
  | Text s :: r => s +:+ template r
  | Param n :: r => String "{" (n +:+ String "}" (template r))
  end.

(** The text with every parameter replaced by its value. *)
Fixpoint render (d : list (string * value)) (ps : list piece) : outcome string :=
  match ps with
  | [] => Ok ""
  | Text s :: r => t ← render d r; Ok (s +:+ t)
  | Param n :: r => v ← field_value d n; x ← format v; t ← render d r; Ok (x +:+ t)
  end.

Definition is_brace (c : ascii) : bool := Ascii.eqb c "{" || Ascii.eqb c "}".

Fixpoint brace_free (s : string) : bool :=
  match s with
  | "" => true
  | String c r => negb (is_brace c) && brace_free r
  end.

Fixpoint plain_name (s : string) : bool :=
  match s with
  | "" => true
  | String c r => negb (field_syntax c) && negb (Ascii.eqb c "}") && plain_name r
  end.

Definition well_formed (p : piece) : bool :=
  match p with Text s => brace_free s | Param n => plain_name n end.

(** *** Requests *)

Definition client_request (c : client) (m : http_method) (endpoint : string) (b : payload)
  : event :=
  EvRequest {| via := ViaClient; meth := m; base := base_url c; target := endpoint;
               hdrs := headers c; body := b |}.

Definition upload_request (url : string) (fields : value) (name data : string) : request :=
  {| via := Standalone; meth := POST; base := ""; target := url; hdrs := ∅;
     body := Multipart fields [("file", (name, data))] |}.

Definition artifacts_endpoint (org p : string) : string :=
  "/projects/" +:+ org +:+ "/" +:+ p +:+ "/artifacts".

(** What an upload does, step by step: the artifact is announced through
    the client, the local file is opened, its content goes to the signed
    URL. *)
Definition upload_events (c : client) (org p : string) (body : Payload.Artifact)
    (url : string) (fields : value) (data : string) : list event :=
  [client_request c POST (artifacts_endpoint org p)
     (Json (VDict [("key", VStr (Payload.key body))]));
   EvOpen (Payload.key body);
   EvRequest (upload_request url fields (Payload.key body) data)].

Definition mk_state (c : client) (e : gmap string string) (n : list response)
    (f : gmap string string) (t : list event) : state :=
  {| self := c; environ := e; net := n; files := f; trace := t |}.

(** The state after [n] replies were consumed and [evs] happened. *)
Definition advance (s : state) (n : list response) (evs : list event) : state :=
  mk_state (self s) (environ s) n (files s) (trace s ++ evs).

(** *** The endpoint methods as a vocabulary of calls *)

Inductive call :=
  | GetOrganization
  | CreateProject (body : Payload.Create)
  | AddRecipeToProject (project_name : value) (body : Payload.RecipeFilter)
  | AddFileToProject (project_name : value) (body : Payload.Artifact)
  | CreateJob (project_name : value) (body : Payload.Job)
  | GetJob (project_name job_id : value)
  | ListJobs (project_name : value)
  | ListJobArtifacts (project_name job_id : value)
  | GetJobArtifactLink (project_name job_id artifact_path : value)
  | GetRuns (project_name job_id : value)
  | GetRunOutput (project_name run_id output_name : value).

Section Calls.
Context `{Httpx} `{Queenbee}.
Import PollinationClient.

Definition perform (c : call) : M unit :=
  match c with
  | GetOrganization => get_organization;; mret tt
  | CreateProject b => create_project b;; mret tt
  | AddRecipeToProject p b => add_recipe_to_project p b;; mret tt
  | AddFileToProject p b => add_file_to_project p b;; mret tt
  | CreateJob p b => create_job p b;; mret tt
  | GetJob p j => get_job p j;; mret tt
  | ListJobs p => list_jobs p;; mret tt
  | ListJobArtifacts p j => list_job_artifacts p j;; mret tt
  | GetJobArtifactLink p j a => get_job_artifact_link p j a;; mret tt
  | GetRuns p j => get_runs p j;; mret tt
  | GetRunOutput p r o => get_run_output p r o;; mret tt
  end.

(** A caller making one call after another, whether or not a call
    raised. *)
Fixpoint session (cs : list call) (s : state) : state :=
  match cs with
  | [] => s
  | c :: rest => session rest (snd (perform c s))
  end.
End Calls.

(** A request sent through the client carries the token [k]. *)
Definition carries_token (k : string) (e : event) : Prop :=
  match e with
  | EvRequest r => via r = ViaClient → hdrs r !! PollinationClient.token_header = Some k
  | _ => True
  end.

(** *** The upload *)

(** [add_file_to_project] up to and including the POST to storage. *)
Definition storage_post (project_name : value) (body : Payload.Artifact) : M response :=
  endpoint ← PollinationClient.add_file_to_project_endpoint project_name;
  res ← Client_post endpoint (Payload.to_dict body);
  res_body ← json res;
  url ← lift (getitem res_body "url");
  fields ← lift (getitem res_body "fields");
  Artifact_upload body url fields.

(** The upload helper raises for every storage status other than 204 and
    returns the response for 204. *)
Definition raises_unless_204 (H : Httpx) : Prop :=
  ∀ s project_name body res s',
    storage_post project_name body s = (Ok res, s') →
    (status_code res ≠ 204 →
       raises (fst (PollinationClient.add_file_to_project project_name body s)) = true) ∧
    (status_code res = 204 →
       fst (PollinationClient.add_file_to_project project_name body s) = Ok (Some res)).

(** *** Polling *)

(** [body['status']['status']] of a reply. *)
Definition job_status (r : response) : outcome value :=
  match json_body r with
  | Some b => st ← getitem b "status"; getitem st "status"
  | None => Raise JSONDecodeError
  end.

Definition completed (r : response) : bool :=
  match job_status r with Ok v => eq_str v "Completed" | Raise _ => false end.

Definition cancelled (r : response) : bool :=
  match job_status r with
  | Ok v => negb (eq_str v "Completed") && eq_str v "Cancelled"
  | Raise _ => false
  end.

(** A status was fetched and it is neither of the two end states. *)
Definition pending (r : response) : bool :=
  match job_status r with
  | Ok v => negb (eq_str v "Completed") && negb (eq_str v "Cancelled")
  | Raise _ => false
  end.

Definition status_check (c : client) (endpoint : string) : event :=
  client_request c GET endpoint NoBody.

(** [k] full iterations of the loop entered with [remaining] polls left:
    a status check, a sleep of 60 seconds, the count that is left. *)
Fixpoint waiting (c : client) (endpoint : string) (remaining k : nat) {struct k}
  : list event :=
  match k, remaining with
  | S k', S r =>
      [status_check c endpoint; EvSleep 60;
       EvPrint (PValue (VStr (pretty r +:+ " attempts remaining")))]
      ++ waiting c endpoint r k'
  | _, _ => []
  end.

(** The last iteration, which saw an end state. *)
Definition finishing (c : client) (endpoint : string) (r : response) : list event :=
  [status_check c endpoint;
   EvPrint (PValue (VStr (if completed r then "Job finished!" else "Job cancelled!")))].

Definition job_endpoint (org p j : string) : string :=
  "/projects/" +:+ org +:+ "/" +:+ p +:+ "/jobs/" +:+ j.

(** The line the script prints before it starts polling. *)
Definition announcement : event :=
  EvPrint (PValue (VStr "Waiting up to 300 sec for job to finish...")).

(** The lines printed among [evs], in order. *)
Fixpoint printed (evs : list event) : list string :=
  match evs with
  | [] => []
  | EvPrint (PValue (VStr line)) :: rest => line :: printed rest
  | _ :: rest => printed rest
  end.

(** *** Downloads *)

Definition first_output_name (run : value) : outcome value :=
  st ← getitem run "status"; outs ← getitem st "outputs";
  out ← getitem0 outs; getitem out "name".

(** One run of the listing with the replies it will get. *)
Record download := {
  dl_run : value;
  dl_id : string;
  dl_output : string;
  dl_link : response;
  dl_url : string;
  dl_data : response
}.

Definition zip_name (x : download) : string :=
  dl_id x +:+ "-" +:+ dl_output x +:+ ".zip".

(** [u] is an address the model fetches. *)
Definition fetchable (u : string) : bool :=
  match splittype u with
  | Some (scheme, rest) => http_address scheme rest
  | None => false
  end.

(** The run can be read, its link is an address that can be fetched, the
    fetch succeeds, and the file name it leads to can be written. *)
Definition consistent (x : download) : Prop :=
  (getitem (dl_run x) "id" ≫= format) = Ok (dl_id x) ∧
  (first_output_name (dl_run x) ≫= format) = Ok (dl_output x) ∧
  json_body (dl_link x) = Some (VStr (dl_url x)) ∧
  fetchable (dl_url x) = true ∧
  (200 <=? status_code (dl_data x)) && (status_code (dl_data x) <? 300) = true ∧
  portable_name (zip_name x) = true.

Definition output_endpoint (org p : string) (x : download) : string :=
  "/projects/" +:+ org +:+ "/" +:+ p +:+ "/runs/" +:+ dl_id x +:+ "/outputs/"
  +:+ dl_output x.

Definition download_events (c : client) (org p : string) (x : download) : list event :=
  [client_request c GET (output_endpoint org p x) NoBody;
   EvRetrieve (dl_url x) (zip_name x)].

Definition download_replies (x : download) : list response := [dl_link x; dl_data x].

Definition saved (fs : gmap string string) (xs : list download) : gmap string string :=
  foldl (fun fs x => <[zip_name x := content (dl_data x)]> fs) fs xs.

Definition runs_endpoint (org p j : string) : string :=
  ("/projects/" +:+ org +:+ "/" +:+ p +:+ "/runs") +:+ "?job_id=" +:+ j.

(** *** Start-up *)

(** The script stops with a [KeyError] before anything has happened. *)
Definition fails_at_startup (script : M unit) (s : state) : Prop :=
  ∃ k, fst (script s) = Raise (KeyError k) ∧ trace (snd (script s)) = trace s.

Definition lacks_variable (s : state) : Prop :=
  environ s !! "POLLINATION_API_KEY" = None ∨ environ s !! "POLLINATION_ORG" = None.

(** With either variable missing, constructing the client fails at once,
    and so does every script. *)
Definition every_script_fails_at_startup (H : Httpx) (Q : Queenbee) : Prop :=
  ∀ s, lacks_variable s →
    fails_at_startup (PollinationClient.init no_kwargs) s ∧
    fails_at_startup Main.main s ∧
    fails_at_startup GetUser.script s.

(** The client object [__init__] leaves behind, given which of the two
    variables it found. *)
Definition constructed (kw : kwargs) (api_key : option string) (org : option string)
  : client :=
  {| base_url := PollinationClient.api_url;
     headers := match api_key with
                | Some k => <[PollinationClient.token_header := k]>
                              (default ∅ (kw_headers kw))
                | None => default ∅ (kw_headers kw)
                end;
     organization := org |}.

(** *** Methods that leave the client alone *)

(** A request that went through the client was sent with [c]'s headers. *)
Definition sent_with (c : client) (e : event) : Prop :=
  match e with
  | EvRequest r => via r = ViaClient → hdrs r = headers c
  | _ => True
  end.

(** [m] does not touch the client object, and every request it sends
    through the client carries the client's headers. *)
Definition steady {A} (m : M A) : Prop :=
  ∀ s, self (snd (m s)) = self s ∧
       ∃ evs, trace (snd (m s)) = trace s ++ evs ∧ Forall (sent_with (self s)) evs.

(** ** Example worlds *)

Module Example.
Definition blank : client := {| base_url := ""; headers := ∅; organization := None |}.

Definition reply (code : Z) (j : option value) : response :=
  {| status_code := code; content := "data"; json_body := j |}.

Definition status_reply (status : string) : response :=
  reply 200 (Some (VDict [("status", VDict [("status", VStr status)])])).

Definition signed : response :=
  reply 200 (Some (VDict [("url", VStr "https://storage.example/bucket");
                          ("fields", VDict [("policy", VStr "p")])])).

Definition run (id output : string) : value :=
  VDict [("id", VStr id);
         ("status", VDict [("outputs", VList [VDict [("name", VStr output)]])])].

Definition both_variables : gmap string string :=
  {[ "POLLINATION_API_KEY" := "secret"; "POLLINATION_ORG" := "acme" ]}.

Definition only_api_key : gmap string string := {[ "POLLINATION_API_KEY" := "secret" ]}.

Definition models : gmap string string :=
  {[ "model1.hbjson" := "one"; "model2.hbjson" := "two" ]}.

Definition world (e : gmap string string) (n : list response) : state :=
  mk_state blank e n models [].

Definition project_name : value := VStr "good-project".

Definition model1 : Payload.Artifact := {| Payload.key := "model1.hbjson" |}.

Definition upload_fields : value := VDict [("policy", VStr "p")].

Definition running : list response :=
  [status_reply "Running"; status_reply "Queued"; status_reply "Running";
   status_reply "Running"; status_reply "Running"].

Definition listing : response :=
  reply 200 (Some (VDict [("resources", VList [run "R1" "out"])])).

Definition link : response := reply 200 (Some (VStr "https://download.example/R1")).

Definition first_run : download :=
  {| dl_run := run "R1" "out"; dl_id := "R1"; dl_output := "out"; dl_link := link;
     dl_url := "https://download.example/R1"; dl_data := reply 200 None |}.

(** A world in which the client has been constructed. *)
Definition ready (n : list response) : state :=
  mk_state {| base_url := PollinationClient.api_url;
              headers := {[ PollinationClient.token_header := "secret" ]};
              organization := Some "acme" |}
           both_variables n models [].
End Example.

(** ** Further vocabulary *)

(** *** What a computation costs *)

(** Requests sent through the client among [evs]. *)
Fixpoint through_client (evs : list event) : nat :=
  match evs with
  | [] => 0%nat
  | EvRequest r :: rest =>
      ((match via r with ViaClient => 1 | Standalone => 0 end) + through_client rest)%nat
  | _ :: rest => through_client rest
  end.

(** Requests sent outside the client among [evs]. *)
Fixpoint standalone (evs : list event) : nat :=
  match evs with
  | [] => 0%nat
  | EvRequest r :: rest =>
      ((match via r with ViaClient => 0 | Standalone => 1 end) + standalone rest)%nat
  | _ :: rest => standalone rest
  end.

(** Seconds slept among [evs]. *)
Fixpoint slept (evs : list event) : Z :=
  match evs with
  | [] => 0
  | EvSleep n :: rest => n + slept rest
  | _ :: rest => slept rest
  end.

(** [m] leaves the environment and the local files as they are, sends at
    most [a] requests through the client and [b] outside it, and sleeps at
    most [z] seconds. *)
Definition costs {A} (a b : nat) (z : Z) (m : M A) : Prop :=
  ∀ s, environ (snd (m s)) = environ s ∧
       files (snd (m s)) = files s ∧
       ∃ evs, trace (snd (m s)) = trace s ++ evs ∧
              (through_client evs ≤ a)%nat ∧ (standalone evs ≤ b)%nat ∧ slept evs ≤ z.

(** [m] changes nothing at all. *)
Definition silent {A} (m : M A) : Prop := ∀ s, snd (m s) = s.

(** The storage requests a call may make: one for an upload, none
    otherwise. *)
Definition storage_budget (c : call) : nat :=
  match c with AddFileToProject _ _ => 1%nat | _ => 0%nat end.

(** *** Announcing an artifact *)

(** The signed URL and the form fields in the reply to the announcement. *)
Definition announced (r : response) : outcome (value * value) :=
  match json_body r with
  | Some j => url ← getitem j "url"; fields ← getitem j "fields"; Ok (url, fields)
  | None => Raise JSONDecodeError
  end.

(** One file of the upload loop with the replies it will get. *)
Record upload := {
  up_name : string;
  up_announce : response;
  up_url : string;
  up_fields : value;
  up_data : string;
  up_stored : response
}.

Definition uploadable (fs : gmap string string) (x : upload) : Prop :=
  announced (up_announce x) = Ok (VStr (up_url x), up_fields x) ∧
  fs !! up_name x = Some (up_data x) ∧
  status_code (up_stored x) = 204.

Definition upload_replies (x : upload) : list response := [up_announce x; up_stored x].

(** The job argument the script builds for an uploaded file. *)
Definition model_argument (name : string) : JobPathArgument :=
  {| arg_name := "model"; arg_source := {| path := name |} |}.

(** What the script does for one file: the upload, then the response is
    printed. *)
Definition upload_and_print (c : client) (org : string) (x : upload) : list event :=
  upload_events c org "good-project" {| Payload.key := up_name x |}
    (up_url x) (up_fields x) (up_data x)
  ++ [EvPrint (PResponse (up_stored x))].

(** *** Runs *)

(** What the download loop reads from a run before it sends anything. *)
Definition run_fields (run : value) : outcome (value * value) :=
  id ← getitem run "id"; name ← first_output_name run; Ok (id, name).

(** *** Serialisation *)

(** [v] holds no foreign object: it is made of what JSON can express. *)
Fixpoint serialisable (v : value) : bool :=
  match v with
  | VArg _ => false
  | VList l => forallb serialisable l
  | VDict d => forallb (fun kv => serialisable (snd kv)) d
  | _ => true
  end.

(** *** The script up to the job *)

(** The source URL of the recipe the script submits. *)
Definition recipe_source_url : string :=
  "https://api.pollination.cloud/registries/ladybug-tools/recipe/daylight-factor/0.5.6".

Module Example2.
Definition upload1 : upload :=
  {| up_name := "model1.hbjson"; up_announce := Example.signed;
     up_url := "https://storage.example/bucket"; up_fields := Example.upload_fields;
     up_data := "one"; up_stored := Example.reply 204 None |}.

Definition upload2 : upload :=
  {| up_name := "model2.hbjson"; up_announce := Example.signed;
     up_url := "https://storage.example/bucket"; up_fields := Example.upload_fields;
     up_data := "two"; up_stored := Example.reply 204 None |}.

Definition no_outputs : value :=
  VDict [("id", VStr "R2"); ("status", VDict [("outputs", VList [])])].

Definition two_runs : response :=
  Example.reply 200
    (Some (VDict [("resources", VList [Example.run "R1" "out"; no_outputs])])).

Definition job_reply : response := Example.reply 201 (Some (VDict [("id", VStr "J1")])).
End Example2.

(** *** Where requests go *)

(** A request that went through the client was addressed to [c]'s base
    URL. *)
Definition addressed_to (c : client) (e : event) : Prop :=
  match e with
  | EvRequest r => via r = ViaClient → base r = base_url c
  | _ => True
  end.

(** [m] does not touch the client object, and every request it sends
    through the client goes to the client's base URL. *)
Definition anchored {A} (m : M A) : Prop :=
  ∀ s, self (snd (m s)) = self s ∧
       ∃ evs, trace (snd (m s)) = trace s ++ evs ∧ Forall (addressed_to (self s)) evs.

(** A request sent through the client went to the API. *)
Definition goes_to_api (e : event) : Prop :=
  match e with
  | EvRequest r => via r = ViaClient → base r = PollinationClient.api_url
  | _ => True
  end.

(** * Properties *)

(** ** Strings and the monad *)

Lemma append_nil_r s : s +:+ "" = s.
Proof. induction s as [|c s IH]; simpl; [|rewrite IH]; reflexivity. Qed.

Lemma append_assoc a b c : (a +:+ b) +:+ c = a +:+ (b +:+ c).
Proof. induction a as [|x a IH]; simpl; [|rewrite IH]; reflexivity. Qed.

Lemma bind_eq {A B} (m : M A) (f : A → M B) s :
  (m ≫= f) s =
  match m s with (Ok a, s') => f a s' | (Raise e, s') => (Raise e, s') end.
Proof. reflexivity. Qed.

Lemma bind_ok {A B} (m : M A) (f : A → M B) s a s' :
  m s = (Ok a, s') → (m ≫= f) s = f a s'.
Proof. intros E. rewrite bind_eq, E. reflexivity. Qed.

Lemma bind_raise {A B} (m : M A) (f : A → M B) s e s' :
  m s = (Raise e, s') → (m ≫= f) s = (Raise e, s').
Proof. intros E. rewrite bind_eq, E. reflexivity. Qed.

Lemma bind_assoc {A B C} (m : M A) (f : A → M B) (g : B → M C) s :
  ((m ≫= f) ≫= g) s = (m ≫= fun a => f a ≫= g) s.
Proof. rewrite !bind_eq. destruct (m s) as [[a|e] s1]; reflexivity. Qed.

Ltac munfold :=
  unfold mbind, M_bind, outcome_bind, mret, M_ret, outcome_ret,
         gets, lift, raise, modify.

(** ** [format_map] substitutes every parameter of a template *)

Ltac by_bits c :=
  destruct c as [[] [] [] [] [] [] [] []]; try discriminate; try reflexivity.

Lemma format_go_char d c r :
  is_brace c = false →
  format_go d (String c r) None = t ← format_go d r None; Ok (String c t).
Proof. intros Hc. by_bits c. Qed.

Lemma format_go_text d txt r :
  brace_free txt = true →
  format_go d (txt +:+ r) None = t ← format_go d r None; Ok (txt +:+ t).
Proof.
  induction txt as [|c txt IH]; intros Hb.
  - simpl String.append. destruct (format_go d r None); reflexivity.
  - simpl in Hb. apply andb_prop in Hb as [Hc Hb].
    apply negb_true_iff in Hc. simpl String.append.
    rewrite (format_go_char _ _ _ Hc), (IH Hb).
    destruct (format_go d r None); reflexivity.
Qed.

Lemma format_go_name d n acc r :
  plain_name n = true →
  format_go d (n +:+ String "}" r) (Some acc) =
  v ← field_value d (acc +:+ n); x ← format v; t ← format_go d r None; Ok (x +:+ t).
Proof.
  revert acc. induction n as [|c n IH]; intros acc Hn.
  - simpl String.append. rewrite append_nil_r. reflexivity.
  - simpl in Hn. apply andb_prop in Hn as [Hc Hn].
    apply andb_prop in Hc as [Hs Hc]. apply negb_true_iff in Hs, Hc.
    simpl String.append.
    replace (acc +:+ String c n) with ((acc +:+ String c "") +:+ n)
      by (rewrite append_assoc; reflexivity).
    rewrite <- (IH _ Hn). clear IH Hn. by_bits c.
Qed.

Lemma format_go_param d n r :
  plain_name n = true →
  format_go d (String "{" (n +:+ String "}" r)) None =
  v ← field_value d n; x ← format v; t ← format_go d r None; Ok (x +:+ t).
Proof.
  intros Hn. change n with ("" +:+ n) at 2.
  rewrite <- (format_go_name d n "" r Hn).
  destruct n as [|c n]; [reflexivity|].
  simpl in Hn. apply andb_prop in Hn as [Hc _].
  apply andb_prop in Hc as [Hs _]. apply negb_true_iff in Hs.
  simpl String.append. by_bits c.
Qed.

Theorem format_map_template d ps :
  forallb well_formed ps = true → format_map (template ps) d = render d ps.
Proof.
  unfold format_map. induction ps as [|[txt|n] ps IH]; intros Hwf.
  - reflexivity.
  - simpl in Hwf. apply andb_prop in Hwf as [Ht Hwf].
    simpl template. simpl render.
    rewrite (format_go_text _ _ _ Ht), (IH Hwf). reflexivity.
  - simpl in Hwf. apply andb_prop in Hwf as [Hn Hwf].
    simpl template. simpl render.
    rewrite (format_go_param _ _ _ Hn), (IH Hwf). reflexivity.
Qed.

(** ** The endpoints *)

Module Endpoints.
Import PollinationClient.

Lemma accounts_name_pieces :
  Routes.accounts_name = template [Text "/accounts/"; Param "name"].
Proof. reflexivity. Qed.

Lemma project_create_pieces :
  Routes.project_create = template [Text "/projects/"; Param "owner"].
Proof. reflexivity. Qed.

Lemma project_add_recipe_pieces :
  Routes.project_add_recipe =
  template [Text "/projects/"; Param "owner"; Text "/"; Param "name";
            Text "/recipes/filters"].
Proof. reflexivity. Qed.

Lemma project_add_artifact_pieces :
  Routes.project_add_artifact =
  template [Text "/projects/"; Param "owner"; Text "/"; Param "name";
            Text "/artifacts"].
Proof. reflexivity. Qed.

Lemma project_jobs_pieces :
  Routes.project_jobs =
  template [Text "/projects/"; Param "owner"; Text "/"; Param "name"; Text "/jobs"].
Proof. reflexivity. Qed.

Lemma project_job_by_id_pieces :
  Routes.project_job_by_id =
  template [Text "/projects/"; Param "owner"; Text "/"; Param "name";
            Text "/jobs/"; Param "job_id"].
Proof. reflexivity. Qed.

Lemma project_job_artifacts_pieces :
  Routes.project_job_artifacts =
  template [Text "/projects/"; Param "owner"; Text "/"; Param "name";
            Text "/jobs/"; Param "job_id"; Text "/artifacts"].
Proof. reflexivity. Qed.

Lemma project_job_artifacts_download_pieces :
  Routes.project_job_artifacts_download =
  template [Text "/projects/"; Param "owner"; Text "/"; Param "name";
            Text "/jobs/"; Param "job_id"; Text "/artifacts/downloads"].
Proof. reflexivity. Qed.

Lemma project_runs_pieces :
  Routes.project_runs =
  template [Text "/projects/"; Param "owner"; Text "/"; Param "name"; Text "/runs"].
Proof. reflexivity. Qed.

Lemma project_run_output_pieces :
  Routes.project_run_output =
  template [Text "/projects/"; Param "owner"; Text "/"; Param "name";
            Text "/runs/"; Param "run_id"; Text "/outputs/"; Param "output_name"].
Proof. reflexivity. Qed.

Ltac route_pieces :=
  rewrite ?accounts_name_pieces, ?project_create_pieces, ?project_add_recipe_pieces,
    ?project_add_artifact_pieces, ?project_jobs_pieces, ?project_job_by_id_pieces,
    ?project_job_artifacts_pieces, ?project_job_artifacts_download_pieces,
    ?project_runs_pieces, ?project_run_output_pieces.

Lemma self_organization_ok s org :
  organization (self s) = Some org → self_organization s = (Ok (VStr org), s).
Proof. intros E. unfold self_organization. munfold. rewrite E. reflexivity. Qed.

(** Formats the endpoint of the goal, given the organization [Horg] and
    the text of each argument among the hypotheses. *)
Ltac format_endpoint Horg :=
  rewrite bind_eq, (self_organization_ok _ _ Horg); cbv beta iota;
  route_pieces; try rewrite bind_eq; unfold lift;
  rewrite format_map_template by reflexivity;
  unfold field_value; simpl;
  repeat match goal with E : format _ = Ok _ |- _ => rewrite E; simpl end;
  try rewrite append_nil_r; try reflexivity.

Section Formatted.
Variables (s : state) (org : string).
Hypothesis Horg : organization (self s) = Some org.
Variables (pn : value) (p : string).
Hypothesis Hp : format pn = Ok p.

Lemma add_file_to_project_endpoint_ok :
  add_file_to_project_endpoint pn s =
  (Ok ("/projects/" +:+ org +:+ "/" +:+ p +:+ "/artifacts"), s).
Proof. unfold add_file_to_project_endpoint. format_endpoint Horg. Qed.

Lemma get_job_endpoint_ok jid j :
  format jid = Ok j →
  get_job_endpoint pn jid s = (Ok (job_endpoint org p j), s).
Proof. intros Hj. unfold get_job_endpoint, job_endpoint. format_endpoint Horg. Qed.

Lemma get_runs_endpoint_ok jid j :
  format jid = Ok j →
  get_runs_endpoint pn jid s = (Ok (runs_endpoint org p j), s).
Proof.
  intros Hj. unfold get_runs_endpoint, runs_endpoint. format_endpoint Horg.
Qed.

Lemma get_run_output_endpoint_ok rid r out o :
  format rid = Ok r → format out = Ok o →
  get_run_output_endpoint pn rid out s =
  (Ok ("/projects/" +:+ org +:+ "/" +:+ p +:+ "/runs/" +:+ r +:+ "/outputs/" +:+ o), s).
Proof. intros Hr Ho. unfold get_run_output_endpoint. format_endpoint Horg. Qed.
End Formatted.
End Endpoints.

(** C3. Whatever strings the arguments are, each endpoint method formats
    its route with every parameter ([{owner}], [{name}], [{job_id}],
    [{run_id}], [{output_name}]) replaced by the matching argument or by
    the client's organization: the endpoint is the literal text of the
    route with the values in the parameters' places, and no parameter of
    the template is left. *)
Theorem endpoints_substitute_every_parameter
    (s : state) (org project_name job_id run_id output_name artifact_path : string) :
  organization (self s) = Some org →
  let name := VStr project_name in
  PollinationClient.org_endpoint s = (Ok ("/accounts/" +:+ org), s) ∧
  PollinationClient.create_project_endpoint s = (Ok ("/projects/" +:+ org), s) ∧
  PollinationClient.add_recipe_to_project_endpoint name s =
    (Ok ("/projects/" +:+ org +:+ "/" +:+ project_name +:+ "/recipes/filters"), s) ∧
  PollinationClient.add_file_to_project_endpoint name s =
    (Ok ("/projects/" +:+ org +:+ "/" +:+ project_name +:+ "/artifacts"), s) ∧
  PollinationClient.create_job_endpoint name s =
    (Ok ("/projects/" +:+ org +:+ "/" +:+ project_name +:+ "/jobs"), s) ∧
  PollinationClient.get_job_endpoint name (VStr job_id) s =
    (Ok ("/projects/" +:+ org +:+ "/" +:+ project_name +:+ "/jobs/" +:+ job_id), s) ∧
  PollinationClient.list_jobs_endpoint name s =
    (Ok ("/projects/" +:+ org +:+ "/" +:+ project_name +:+ "/jobs"), s) ∧
  PollinationClient.list_job_artifacts_endpoint name (VStr job_id) s =
    (Ok ("/projects/" +:+ org +:+ "/" +:+ project_name +:+ "/jobs/" +:+ job_id
         +:+ "/artifacts"), s) ∧
  PollinationClient.get_job_artifact_link_endpoint name (VStr job_id) (VStr artifact_path) s =
    (Ok (("/projects/" +:+ org +:+ "/" +:+ project_name +:+ "/jobs/" +:+ job_id
          +:+ "/artifacts/downloads") +:+ "?path=" +:+ artifact_path), s) ∧
  PollinationClient.get_runs_endpoint name (VStr job_id) s =
    (Ok (("/projects/" +:+ org +:+ "/" +:+ project_name +:+ "/runs")
         +:+ "?job_id=" +:+ job_id), s) ∧
  PollinationClient.get_run_output_endpoint name (VStr run_id) (VStr output_name) s =
    (Ok ("/projects/" +:+ org +:+ "/" +:+ project_name +:+ "/runs/" +:+ run_id
         +:+ "/outputs/" +:+ output_name), s).
Proof.
  intros Horg name. subst name.
  repeat split.
  - unfold PollinationClient.org_endpoint. Endpoints.format_endpoint Horg.
  - unfold PollinationClient.create_project_endpoint. Endpoints.format_endpoint Horg.
  - unfold PollinationClient.add_recipe_to_project_endpoint.
    Endpoints.format_endpoint Horg.
  - unfold PollinationClient.add_file_to_project_endpoint.
    Endpoints.format_endpoint Horg.
  - unfold PollinationClient.create_job_endpoint. Endpoints.format_endpoint Horg.
  - unfold PollinationClient.get_job_endpoint. Endpoints.format_endpoint Horg.
  - unfold PollinationClient.list_jobs_endpoint. Endpoints.format_endpoint Horg.
  - unfold PollinationClient.list_job_artifacts_endpoint.
    Endpoints.format_endpoint Horg.
  - unfold PollinationClient.get_job_artifact_link_endpoint.
    Endpoints.format_endpoint Horg.
  - unfold PollinationClient.get_runs_endpoint. Endpoints.format_endpoint Horg.
  - unfold PollinationClient.get_run_output_endpoint. Endpoints.format_endpoint Horg.
Qed.

(** ** Payloads *)

Section PayloadShape.
Context `{Queenbee}.
Import Payload.

Lemma group_loop_app group g :
  group_loop group g = g ++ map arg_to_dict group.
Proof.
  revert g. induction group as [|arg rest IH]; intros g; simpl.
  - symmetry. apply app_nil_r.
  - rewrite IH, <- app_assoc. reflexivity.
Qed.

Lemma args_loop_app groups args :
  args_loop groups args = args ++ map (fun g => VList (map arg_to_dict g)) groups.
Proof.
  revert args. induction groups as [|group rest IH]; intros args; simpl.
  - symmetry. apply app_nil_r.
  - rewrite IH, group_loop_app, <- app_assoc. reflexivity.
Qed.

(** C4. [Job.to_dict] returns a dict with the job's source under
    ['source'] and, under ['arguments'], one list per argument group in
    the same order, holding [to_dict()] of each argument of the group in
    order; the flat payloads serialise to their fields, name by name. *)
Theorem to_dict_shape (job : Job) (c : Create) (f : RecipeFilter) (a : Artifact) :
  Job_to_dict job =
    VDict [("source", VStr (source job));
           ("arguments",
            VList (map (fun group => VList (map arg_to_dict group)) (arguments job)))] ∧
  (∀ i j,
     (getitem (Job_to_dict job) "arguments" ≫= fun args =>
      match args with
      | VList gs =>
          match gs !! i with
          | Some (VList g) => Ok (g !! j)
          | _ => Ok None
          end
      | _ => Raise TypeError
      end) = Ok (arg_to_dict <$> (arguments job !! i ≫= fun group => group !! j))) ∧
  to_dict c =
    VDict [("name", VStr (name c)); ("description", VStr (description c));
           ("public", VBool (public c))] ∧
  to_dict f =
    VDict [("owner", VStr (rf_owner f)); ("name", VStr (rf_name f));
           ("tag", VStr (rf_tag f))] ∧
  to_dict a = VDict [("key", VStr (key a))].
Proof.
  assert (E : Job_to_dict job =
    VDict [("source", VStr (source job));
           ("arguments",
            VList (map (fun group => VList (map arg_to_dict group)) (arguments job)))]).
  { unfold Job_to_dict. rewrite args_loop_app. reflexivity. }
  split; [exact E|]. split; [|repeat split].
  intros i j. rewrite E. simpl.
  rewrite list_lookup_fmap.
  destruct (arguments job !! i) as [group|]; simpl; [|reflexivity].
  rewrite list_lookup_fmap. reflexivity.
Qed.
End PayloadShape.

(** ** Constructing the client *)

Section Init.
Import PollinationClient.

Lemma init_eq kw s :
  init kw s =
  match environ s !! "POLLINATION_API_KEY", environ s !! "POLLINATION_ORG" with
  | None, _ =>
      (Raise (KeyError "POLLINATION_API_KEY"), set_self (constructed kw None None) s)
  | Some k, None =>
      (Raise (KeyError "POLLINATION_ORG"), set_self (constructed kw (Some k) None) s)
  | Some k, Some o => (Ok tt, set_self (constructed kw (Some k) (Some o)) s)
  end.
Proof.
  unfold init, Client_init, update_self, environ_get. munfold. simpl.
  destruct (environ s !! "POLLINATION_API_KEY") as [k|]; [|reflexivity]. simpl.
  destruct (environ s !! "POLLINATION_ORG") as [o|]; reflexivity.
Qed.
End Init.

(** C10. Whatever keyword arguments the constructor is given, a [base_url]
    among them included, the client's [base_url] is
    ['https://api.pollination.cloud'] once [__init__] has run. *)
Theorem init_overwrites_base_url (kw : kwargs) (s : state) :
  base_url (self (snd (PollinationClient.init kw s))) = PollinationClient.api_url.
Proof.
  rewrite init_eq.
  destruct (environ s !! "POLLINATION_API_KEY") as [k|]; [|reflexivity].
  destruct (environ s !! "POLLINATION_ORG") as [o|]; reflexivity.
Qed.

Section Startup.
Context `{Httpx} `{Queenbee}.

Lemma init_fails_at_startup kw s :
  lacks_variable s → fails_at_startup (PollinationClient.init kw) s.
Proof.
  intros Hlack. unfold fails_at_startup. rewrite init_eq.
  destruct (environ s !! "POLLINATION_API_KEY") as [k|] eqn:Ek.
  - destruct Hlack as [Hk|Ho]; [congruence|]. rewrite Ho. eexists. split; reflexivity.
  - eexists. split; reflexivity.
Qed.

(** C9, as the code has it. With either variable missing, constructing the
    client raises [KeyError] before anything is sent, and so the
    orchestration script fails at startup; the user-info script, which
    reads only [POLLINATION_API_KEY], fails at startup when that one is
    missing. *)
Theorem missing_variable_fails_at_startup (s : state) :
  lacks_variable s →
  (∀ kw, fails_at_startup (PollinationClient.init kw) s) ∧
  fails_at_startup Main.main s ∧
  (environ s !! "POLLINATION_API_KEY" = None → fails_at_startup GetUser.script s).
Proof.
  intros Hlack. split; [|split].
  - intros kw. apply init_fails_at_startup, Hlack.
  - destruct (init_fails_at_startup no_kwargs s Hlack) as (k & Ek & Et).
    exists k. unfold Main.main. rewrite bind_eq.
    destruct (PollinationClient.init no_kwargs s) as [[[]|e] s1]; simpl in Ek, Et.
    + discriminate.
    + split; [exact Ek | exact Et].
  - intros Ek. exists "POLLINATION_API_KEY".
    unfold GetUser.script, environ_get. munfold. rewrite Ek. split; reflexivity.
Qed.
End Startup.

(** C9, witness: no variable at all. *)
Lemma missing_variable_fails_at_startup_witness :
  (∀ kw, fails_at_startup (PollinationClient.init kw) (Example.world ∅ [])) ∧
  fails_at_startup (@Main.main raise_for_status_current queenbee_to_dict)
                   (Example.world ∅ []) ∧
  (environ (Example.world ∅ []) !! "POLLINATION_API_KEY" = None →
   fails_at_startup GetUser.script (Example.world ∅ [])).
Proof.
  apply (@missing_variable_fails_at_startup raise_for_status_current queenbee_to_dict
           (Example.world ∅ [])).
  left. reflexivity.
Defined.

(** C9, as stated, fails: with [POLLINATION_ORG] missing the user-info
    script runs to its end and sends its request. *)
Lemma get_user_runs_without_organization :
  ¬ every_script_fails_at_startup raise_for_status_current queenbee_to_dict.
Proof.
  intros Hall.
  assert (Hlack : lacks_variable
            (Example.world Example.only_api_key [Example.reply 200 (Some VNone)]))
    by (right; reflexivity).
  destruct (Hall _ Hlack) as (_ & _ & k & Ek & _).
  vm_compute in Ek. discriminate.
Qed.

(** ** The token header *)

Section Steady.
Context `{Httpx} `{Queenbee}.
Import PollinationClient.

Lemma steady_still {A} (m : M A) :
  (∀ s, snd (m s) = s) → steady m.
Proof.
  intros E s. rewrite E. split; [reflexivity|].
  exists []. split; [symmetry; apply app_nil_r | constructor].
Qed.

Lemma steady_ret {A} (a : A) : steady (mret a : M A).
Proof. apply steady_still. reflexivity. Qed.

Lemma steady_lift {A} (o : outcome A) : steady (lift o).
Proof. apply steady_still. reflexivity. Qed.

Lemma steady_raise {A} (e : exn) : steady (raise e : M A).
Proof. apply steady_still. reflexivity. Qed.

Lemma steady_gets {A} (f : state → A) : steady (gets f).
Proof. apply steady_still. reflexivity. Qed.

Lemma steady_json res : steady (json res).
Proof. apply steady_still. intros s. unfold json. destruct (json_body res); reflexivity. Qed.

Lemma steady_bind {A B} (m : M A) (f : A → M B) :
  steady m → (∀ a, steady (f a)) → steady (m ≫= f).
Proof.
  intros Hm Hf s. rewrite bind_eq.
  destruct (Hm s) as (Hself & evs & Htrace & Hsent).
  destruct (m s) as [[a|e] s1]; simpl in Hself, Htrace.
  - destruct (Hf a s1) as (Hself' & evs' & Htrace' & Hsent').
    split; [congruence|]. exists (evs ++ evs'). split.
    + rewrite Htrace', Htrace, app_assoc. reflexivity.
    + apply Forall_app. split; [exact Hsent|]. rewrite <- Hself. exact Hsent'.
  - split; [exact Hself|]. exists evs. split; assumption.
Qed.

Lemma steady_emit e : (∀ c, sent_with c e) → steady (emit e).
Proof.
  intros He s. split; [reflexivity|]. exists [e]. split; [reflexivity|].
  constructor; [apply He | constructor].
Qed.

Lemma steady_receive : steady receive.
Proof.
  intros s. unfold receive. destruct (net s) as [|r rest]; simpl.
  - split; [reflexivity|]. exists []. split; [symmetry; apply app_nil_r | constructor].
  - split; [reflexivity|]. exists []. split; [symmetry; apply app_nil_r | constructor].
Qed.

Lemma steady_Client_request m endpoint b : steady (Client_request m endpoint b).
Proof.
  intros s. unfold Client_request, receive, emit. munfold. simpl.
  destruct (net s) as [|r rest]; simpl.
  - split; [reflexivity|]. eexists. split; [reflexivity|].
    constructor; [intros _; reflexivity | constructor].
  - split; [reflexivity|]. eexists. split; [reflexivity|].
    constructor; [intros _; reflexivity | constructor].
Qed.

Ltac steady_step :=
  first
    [ apply steady_ret | apply steady_lift | apply steady_raise | apply steady_gets
    | apply steady_json | apply steady_receive | apply steady_Client_request
    | apply steady_emit; intros ?; simpl; (exact I || discriminate)
    | apply steady_bind; [|intros ?]
    | match goal with
      | |- steady (match ?x with _ => _ end) => destruct x
      | |- steady (if ?x then _ else _) => destruct x
      end ].

Ltac steady_all := repeat steady_step.

Lemma steady_Artifact_upload body url fields : steady (Artifact_upload body url fields).
Proof. unfold Artifact_upload, httpx_post. steady_all. Qed.

Lemma steady_self_organization : steady self_organization.
Proof. unfold self_organization. steady_all. Qed.

Lemma steady_perform c : steady (perform c).
Proof.
  destruct c; unfold perform;
    (apply steady_bind; [|intros ?; apply steady_ret]).
  - unfold get_organization, org_endpoint, self_organization, Client_get. steady_all.
  - unfold create_project, create_project_endpoint, self_organization, Client_post.
    steady_all.
  - unfold add_recipe_to_project, add_recipe_to_project_endpoint, self_organization,
      Client_post. steady_all.
  - unfold add_file_to_project, add_file_to_project_endpoint, self_organization,
      Client_post. steady_all.
  - unfold create_job, create_job_endpoint, self_organization, Client_post. steady_all.
  - unfold get_job, get_job_endpoint, self_organization, Client_get. steady_all.
  - unfold list_jobs, list_jobs_endpoint, self_organization, Client_get. steady_all.
  - unfold list_job_artifacts, list_job_artifacts_endpoint, self_organization,
      Client_get. steady_all.
  - unfold get_job_artifact_link, get_job_artifact_link_endpoint, self_organization,
      Client_get. steady_all.
  - unfold get_runs, get_runs_endpoint, self_organization, Client_get. steady_all.
  - unfold get_run_output, get_run_output_endpoint, self_organization, Client_get.
    steady_all.
Qed.

Lemma session_steady cs s :
  self (session cs s) = self s ∧
  ∃ evs, trace (session cs s) = trace s ++ evs ∧ Forall (sent_with (self s)) evs.
Proof.
  revert s. induction cs as [|c cs IH]; intros s; simpl.
  - split; [reflexivity|]. exists []. split; [symmetry; apply app_nil_r | constructor].
  - destruct (steady_perform c s) as (Hself & evs & Htrace & Hsent).
    destruct (IH (snd (perform c s))) as (Hself' & evs' & Htrace' & Hsent').
    split; [congruence|]. exists (evs ++ evs'). split.
    + rewrite Htrace', Htrace, app_assoc. reflexivity.
    + apply Forall_app. split; [exact Hsent|]. rewrite <- Hself. exact Hsent'.
Qed.

(** C6. Once the client is constructed, every request that any sequence
    of endpoint methods sends through it carries [x-pollination-token]
    with the value [POLLINATION_API_KEY] had at construction, and the
    header is still in place after the calls. *)
Theorem requests_carry_token (kw : kwargs) (s0 s : state) (cs : list call) :
  init kw s0 = (Ok tt, s) →
  ∃ k, environ s0 !! "POLLINATION_API_KEY" = Some k ∧
       headers (self s) !! token_header = Some k ∧
       headers (self (session cs s)) !! token_header = Some k ∧
       ∃ evs, trace (session cs s) = trace s0 ++ evs ∧ Forall (carries_token k) evs.
Proof.
  rewrite init_eq. intros Hinit.
  destruct (environ s0 !! "POLLINATION_API_KEY") as [k|]; [|discriminate].
  destruct (environ s0 !! "POLLINATION_ORG") as [o|]; [|discriminate].
  injection Hinit as <-.
  destruct (session_steady cs (set_self (constructed kw (Some k) (Some o)) s0))
    as (Hself & evs & Htrace & Hsent).
  assert (Hk : headers (constructed kw (Some k) (Some o)) !! token_header = Some k)
    by apply lookup_insert_eq.
  exists k. split; [reflexivity|]. split; [exact Hk|]. split.
  - rewrite Hself. exact Hk.
  - exists evs. split; [exact Htrace|].
    eapply Forall_impl; [exact Hsent|].
    intros [r| | | |]; simpl; try tauto.
    intros Hr Hvia. rewrite (Hr Hvia). exact Hk.
Qed.
End Steady.

(** ** Uploading a file *)

Lemma bind_ext {A B} (m : M A) (f g : A → M B) s :
  (∀ a s', f a s' = g a s') → (m ≫= f) s = (m ≫= g) s.
Proof. intros E. rewrite !bind_eq. destruct (m s) as [[a|e] s1]; [apply E | reflexivity]. Qed.

Lemma receive_reply s r rest :
  net s = r :: rest → receive s = (Ok r, set_net rest s).
Proof. intros E. unfold receive. rewrite E. reflexivity. Qed.

Lemma Client_request_reply s m endpoint b r rest :
  net s = r :: rest →
  Client_request m endpoint b s =
  (Ok r, advance s rest [client_request (self s) m endpoint b]).
Proof.
  intros E. unfold Client_request, emit, receive. munfold. simpl. rewrite E. reflexivity.
Qed.

Section Upload.
Context `{Httpx}.
Import PollinationClient.

Lemma add_file_to_project_split pn body s :
  add_file_to_project pn body s =
  (res ← storage_post pn body;
   if status_code res =? 204 then mret (Some res) else lift (raise_for_status res)) s.
Proof.
  unfold add_file_to_project, storage_post. symmetry.
  repeat (rewrite bind_assoc; apply bind_ext; intros ? ?). reflexivity.
Qed.

Lemma storage_post_ok s org pn p body r1 j u fields data r2 rest :
  organization (self s) = Some org →
  format pn = Ok p →
  net s = r1 :: r2 :: rest →
  json_body r1 = Some j →
  getitem j "url" = Ok (VStr u) →
  getitem j "fields" = Ok fields →
  files s !! Payload.key body = Some data →
  storage_post pn body s =
  (Ok r2, advance s rest (upload_events (self s) org p body u fields data)).
Proof.
  intros Horg Hp Hnet Hj Hu Hf Hdata. unfold storage_post.
  rewrite (bind_ok _ _ _ _ _ (Endpoints.add_file_to_project_endpoint_ok _ _ Horg _ _ Hp)).
  unfold Client_post.
  rewrite (bind_ok _ _ _ _ _ (Client_request_reply _ _ _ _ _ _ Hnet)).
  unfold json, Artifact_upload, httpx_post, emit, receive. munfold.
  unfold advance, mk_state, set_trace, set_net. simpl.
  rewrite Hj, Hu, Hf. simpl. rewrite Hdata. simpl.
  rewrite <- !app_assoc. reflexivity.
Qed.

(** C5. When the service answers the announcement with a signed URL and
    form fields and the local file exists, [add_file_to_project] does
    exactly this, in this order: one POST of the artifact payload through
    the client, with the client's headers, to the project's artifacts
    endpoint; then one POST of the file's content to the signed URL,
    outside the client and with none of its headers. *)
Theorem upload_is_two_step s org pn p body r1 j u fields data r2 rest :
  organization (self s) = Some org →
  format pn = Ok p →
  net s = r1 :: r2 :: rest →
  json_body r1 = Some j →
  getitem j "url" = Ok (VStr u) →
  getitem j "fields" = Ok fields →
  files s !! Payload.key body = Some data →
  snd (add_file_to_project pn body s) =
    advance s rest
      [client_request (self s) POST ("/projects/" +:+ org +:+ "/" +:+ p +:+ "/artifacts")
         (Json (Payload.to_dict body));
       EvOpen (Payload.key body);
       EvRequest (upload_request u fields (Payload.key body) data)] ∧
  via (upload_request u fields (Payload.key body) data) = Standalone ∧
  hdrs (upload_request u fields (Payload.key body) data) = ∅ ∧
  fst (add_file_to_project pn body s) =
    if status_code r2 =? 204 then Ok (Some r2) else raise_for_status r2.
Proof.
  intros Horg Hp Hnet Hj Hu Hf Hdata.
  rewrite add_file_to_project_split.
  rewrite (bind_ok _ _ _ _ _
             (storage_post_ok _ _ _ _ _ _ _ _ _ _ _ _ Horg Hp Hnet Hj Hu Hf Hdata)).
  repeat split; destruct (status_code r2 =? 204); reflexivity.
Qed.

(** C2, as the code has it. Given the storage response, the upload helper
    returns it when its status is 204 and otherwise does what httpx's
    [raise_for_status] does with it; so it raises for every error status,
    for which every httpx raises. *)
Theorem add_file_to_project_by_status s pn body res s' :
  storage_post pn body s = (Ok res, s') →
  (status_code res = 204 → add_file_to_project pn body s = (Ok (Some res), s')) ∧
  (status_code res ≠ 204 → add_file_to_project pn body s = (raise_for_status res, s')) ∧
  ((∀ r, is_error (status_code r) = true → raises (raise_for_status r) = true) →
   is_error (status_code res) = true →
   raises (fst (add_file_to_project pn body s)) = true).
Proof.
  intros Hpost. rewrite add_file_to_project_split, (bind_ok _ _ _ _ _ Hpost).
  split; [|split].
  - intros ->. reflexivity.
  - intros Hne. apply Z.eqb_neq in Hne. rewrite Hne. reflexivity.
  - intros Hlib Herr. destruct (status_code res =? 204) eqn:E.
    + apply Z.eqb_eq in E. rewrite E in Herr. discriminate.
    + simpl. apply Hlib, Herr.
Qed.
End Upload.

Lemma legacy_raises_for_errors r :
  is_error (status_code r) = true → raises (raise_for_status_legacy r) = true.
Proof. unfold raise_for_status_legacy, is_error. intros ->. reflexivity. Qed.

Lemma current_raises_for_errors r :
  is_error (status_code r) = true → raises (raise_for_status_current r) = true.
Proof.
  unfold raise_for_status_current, is_error. intros E.
  apply andb_prop in E as [E1 E2]. apply Z.leb_le in E1.
  destruct (200 <=? status_code r) eqn:L; [|reflexivity].
  destruct (status_code r <? 300) eqn:U; [|reflexivity].
  apply Z.ltb_lt in U. lia.
Qed.

(** ** Polling *)

Lemma advance_nil s : advance s (net s) [] = s.
Proof. destruct s. unfold advance, mk_state. simpl. rewrite app_nil_r. reflexivity. Qed.

Lemma advance_advance s n evs n' evs' :
  advance (advance s n evs) n' evs' = advance s n' (evs ++ evs').
Proof. unfold advance, mk_state. simpl. rewrite app_assoc. reflexivity. Qed.

Lemma emit_advance e s : emit e s = (Ok tt, advance s (net s) [e]).
Proof. reflexivity. Qed.

Lemma fetch_status {A} r v (k : value → M A) s :
  job_status r = Ok v →
  (body ← json r; st ← lift (getitem body "status");
   job_status ← lift (getitem st "status"); k job_status) s = k v s.
Proof.
  unfold job_status, json. destruct (json_body r) as [b|]; [|discriminate].
  munfold. simpl. destruct (getitem b "status") as [st|]; simpl; [|discriminate].
  intros ->. reflexivity.
Qed.

Lemma pending_status r :
  pending r = true →
  ∃ v, job_status r = Ok v ∧ eq_str v "Completed" = false ∧ eq_str v "Cancelled" = false.
Proof.
  unfold pending. destruct (job_status r) as [v|]; [|discriminate].
  intros E. apply andb_prop in E as [E1 E2]. apply negb_true_iff in E1, E2. eauto.
Qed.

Section Polling.
Context `{Httpx} `{Queenbee}.
Import PollinationClient Main.

Variables (org : string) (pn : value) (p : string) (jid : value) (j : string).
Hypothesis Hp : format pn = Ok p.
Hypothesis Hj : format jid = Ok j.

Lemma get_job_reply s r rest :
  organization (self s) = Some org →
  net s = r :: rest →
  get_job pn jid s = (Ok r, advance s rest [status_check (self s) (job_endpoint org p j)]).
Proof.
  intros Horg Hnet. unfold get_job.
  rewrite (bind_ok _ _ _ _ _ (Endpoints.get_job_endpoint_ok _ _ Horg _ _ Hp _ _ Hj)).
  apply Client_request_reply, Hnet.
Qed.

(** One iteration that saw a status which is not an end state. *)
Lemma poll_loop_pending s r rest n :
  organization (self s) = Some org →
  net s = r :: rest →
  pending r = true →
  poll_loop pn jid (S n) s =
  poll_loop pn jid n (advance s rest (waiting (self s) (job_endpoint org p j) (S n) 1)).
Proof.
  intros Horg Hnet Hpend.
  destruct (pending_status r Hpend) as (v & Hv & Hc & Hx).
  simpl poll_loop.
  rewrite (bind_ok _ _ _ _ _ (get_job_reply _ _ _ Horg Hnet)).
  rewrite (fetch_status _ _ _ _ Hv), Hc, Hx.
  unfold sleep, print_str, print.
  rewrite (bind_ok _ _ _ _ _ (emit_advance _ _)), advance_advance.
  rewrite (bind_ok _ _ _ _ _ (emit_advance _ _)), advance_advance.
  simpl. reflexivity.
Qed.

(** The iteration that saw an end state. *)
Lemma poll_loop_finish s r rest n :
  organization (self s) = Some org →
  net s = r :: rest →
  completed r || cancelled r = true →
  poll_loop pn jid (S n) s =
  (if completed r then Ok tt else Raise SystemExit,
   advance s rest (finishing (self s) (job_endpoint org p j) r)).
Proof.
  intros Horg Hnet Hend. unfold finishing.
  unfold completed, cancelled in *.
  destruct (job_status r) as [v|] eqn:Hv; [|discriminate].
  simpl poll_loop.
  rewrite (bind_ok _ _ _ _ _ (get_job_reply _ _ _ Horg Hnet)).
  rewrite (fetch_status _ _ _ _ Hv).
  destruct (eq_str v "Completed") eqn:Hc.
  - unfold print_str, print. rewrite emit_advance, advance_advance. reflexivity.
  - simpl in Hend. rewrite Hend. unfold print_str, print.
    rewrite (bind_ok _ _ _ _ _ (emit_advance _ _)), advance_advance. reflexivity.
Qed.

(** A run of iterations none of which saw an end state. *)
Lemma poll_loop_waiting pre : ∀ s rest n,
  organization (self s) = Some org →
  net s = pre ++ rest →
  forallb pending pre = true →
  poll_loop pn jid (List.length pre + n) s =
  poll_loop pn jid n
    (advance s rest (waiting (self s) (job_endpoint org p j) (List.length pre + n) (List.length pre))).
Proof.
  induction pre as [|r pre IH]; intros s rest n Horg Hnet Hpend.
  - simpl in *. subst rest. rewrite advance_nil. reflexivity.
  - simpl in Hnet, Hpend. apply andb_prop in Hpend as [Hr Hpend].
    simpl List.length. simpl Nat.add.
    rewrite (poll_loop_pending _ _ _ _ Horg Hnet Hr).
    rewrite (IH _ rest n); [|exact Horg|reflexivity|exact Hpend].
    rewrite advance_advance. reflexivity.
Qed.
End Polling.

Lemma poll_loop_through s org pn p jid j pre rest n m :
  format pn = Ok p → format jid = Ok j →
  organization (self s) = Some org →
  net s = pre ++ rest →
  forallb pending pre = true →
  n = (List.length pre + m)%nat →
  Main.poll_loop pn jid n s =
  Main.poll_loop pn jid m
    (advance s rest (waiting (self s) (job_endpoint org p j) n (List.length pre))).
Proof. intros Hp Hj Horg Hnet Hpend ->. eapply poll_loop_waiting; eassumption. Qed.

(** C1. Whatever the service answers, the polling loop of the script, which
    starts with the script's five polls, stops at the first status that is
    ["Completed"] or ["Cancelled"], with no status check after that one; and
    when the first five statuses are neither, it makes exactly five status
    checks, each followed by a sleep of 60 seconds, and then stops. *)
Theorem poll_loop_stops (s : state) (org : string) (pn : value) (p : string)
    (jid : value) (j : string) (pre rest : list response) :
  organization (self s) = Some org →
  format pn = Ok p →
  format jid = Ok j →
  forallb pending pre = true →
  let c := self s in
  let check := status_check (self s) (job_endpoint org p j) in
  (List.length pre = 5%nat → net s = pre ++ rest →
   Main.poll_loop pn jid Main.remaining_polls s =
   (Ok tt, advance s rest (waiting c (job_endpoint org p j) 5 5))) ∧
  (∀ r, (List.length pre < 5)%nat → completed r || cancelled r = true →
        net s = pre ++ r :: rest →
   Main.poll_loop pn jid Main.remaining_polls s =
   (if completed r then Ok tt else Raise SystemExit,
    advance s rest (waiting c (job_endpoint org p j) 5 (List.length pre)
                    ++ finishing c (job_endpoint org p j) r))) ∧
  waiting c (job_endpoint org p j) 5 5 =
    [check; EvSleep 60; EvPrint (PValue (VStr "4 attempts remaining"));
     check; EvSleep 60; EvPrint (PValue (VStr "3 attempts remaining"));
     check; EvSleep 60; EvPrint (PValue (VStr "2 attempts remaining"));
     check; EvSleep 60; EvPrint (PValue (VStr "1 attempts remaining"));
     check; EvSleep 60; EvPrint (PValue (VStr "0 attempts remaining"))] ∧
  Main.await_job pn jid s =
    (Main.poll_loop pn jid Main.remaining_polls ≫= fun _ => Main.download_outputs pn jid)
      (advance s (net s) [announcement]).
Proof.
  intros Horg Hp Hj Hpend c check. subst c check. split; [|split; [|split]].
  - intros Hlen Hnet. unfold Main.remaining_polls.
    rewrite (poll_loop_through s org pn p jid j pre rest 5 0 Hp Hj Horg Hnet Hpend)
      by lia.
    rewrite Hlen. reflexivity.
  - intros r Hlen Hend Hnet. unfold Main.remaining_polls.
    assert (Hsum : 5%nat = (List.length pre + S (4 - List.length pre))%nat) by lia.
    rewrite (poll_loop_through s org pn p jid j pre (r :: rest) 5 _ Hp Hj Horg Hnet
               Hpend Hsum).
    erewrite poll_loop_finish; [|exact Hp|exact Hj|exact Horg|reflexivity|exact Hend].
    rewrite advance_advance. reflexivity.
  - reflexivity.
  - unfold Main.await_job, print_str, print.
    rewrite (bind_ok _ _ _ _ _ (emit_advance _ _)). reflexivity.
Qed.

(** ** Downloading the outputs *)

Lemma urlretrieve_ok s u filename d rest :
  fetchable u = true →
  net s = d :: rest →
  (200 <=? status_code d) && (status_code d <? 300) = true →
  portable_name filename = true →
  urlretrieve (VStr u) filename s =
  (Ok tt, mk_state (self s) (environ s) rest (<[filename := content d]> (files s))
            (trace s ++ [EvRetrieve u filename])).
Proof.
  intros Hu Hnet Hok Hname. unfold urlretrieve. unfold fetchable in Hu.
  destruct (splittype u) as [[scheme address]|]; [|discriminate].
  rewrite Hu. unfold emit, receive. munfold. simpl.
  rewrite Hnet. simpl. rewrite Hok, Hname. reflexivity.
Qed.



Section Downloads.
Import PollinationClient Main.

Variables (org : string) (pn : value) (p : string).
Hypothesis Hp : format pn = Ok p.

Lemma get_run_output_reply s rid r out o res rest :
  organization (self s) = Some org →
  format rid = Ok r → format out = Ok o →
  net s = res :: rest →
  get_run_output pn rid out s =
  (Ok res,
   advance s rest
     [client_request (self s) GET
        ("/projects/" +:+ org +:+ "/" +:+ p +:+ "/runs/" +:+ r +:+ "/outputs/" +:+ o)
        NoBody]).
Proof.
  intros Horg Hr Ho Hnet. unfold get_run_output.
  rewrite (bind_ok _ _ _ _ _
             (Endpoints.get_run_output_endpoint_ok _ _ Horg _ _ Hp _ _ _ _ Hr Ho)).
  apply Client_request_reply, Hnet.
Qed.

Lemma download_run_ok s x rest :
  organization (self s) = Some org →
  consistent x →
  net s = dl_link x :: dl_data x :: rest →
  download_run pn (dl_run x) s =
  (Ok tt,
   mk_state (self s) (environ s) rest
     (<[zip_name x := content (dl_data x)]> (files s))
     (trace s ++ download_events (self s) org p x)).
Proof.
  intros Horg (Hid & Hname & Hlink & Hurl & Hdata & Hzip) Hnet.
  destruct (getitem (dl_run x) "id") as [idv|] eqn:Eid; [|discriminate].
  simpl in Hid. unfold first_output_name in Hname.
  destruct (getitem (dl_run x) "status") as [st|] eqn:Est; [|discriminate].
  simpl in Hname.
  destruct (getitem st "outputs") as [outs|] eqn:Eouts; [|discriminate].
  simpl in Hname.
  destruct (getitem0 outs) as [out|] eqn:Eout; [|discriminate].
  simpl in Hname.
  destruct (getitem out "name") as [namev|] eqn:Ename; [|discriminate].
  simpl in Hname.
  unfold download_run.
  rewrite bind_eq. unfold lift at 1. rewrite Eid.
  rewrite bind_eq. unfold lift at 1. rewrite Est.
  rewrite bind_eq. unfold lift at 1. rewrite Eouts.
  rewrite bind_eq. unfold lift at 1. rewrite Eout.
  rewrite bind_eq. unfold lift at 1. rewrite Ename.
  rewrite (bind_ok _ _ _ _ _ (get_run_output_reply _ _ _ _ _ _ _ Horg Hid Hname Hnet)).
  unfold json. rewrite Hlink.
  rewrite bind_eq. unfold mret at 1, M_ret.
  rewrite bind_eq. unfold lift at 1. rewrite Hid.
  rewrite bind_eq. unfold lift at 1. rewrite Hname.
  erewrite urlretrieve_ok; [|exact Hurl|reflexivity|exact Hdata|exact Hzip].
  unfold download_events, output_endpoint, zip_name, advance, mk_state. simpl.
  rewrite <- app_assoc. reflexivity.
Qed.

Lemma for_each_downloads xs : ∀ s rest,
  organization (self s) = Some org →
  Forall consistent xs →
  net s = flat_map download_replies xs ++ rest →
  for_each (map dl_run xs) (download_run pn) s =
  (Ok tt,
   mk_state (self s) (environ s) rest (saved (files s) xs)
     (trace s ++ flat_map (download_events (self s) org p) xs)).
Proof.
  induction xs as [|x xs IH]; intros s rest Horg Hxs Hnet.
  - simpl in *. subst rest. destruct s. unfold mk_state. simpl.
    rewrite app_nil_r. reflexivity.
  - inversion Hxs as [|? ? Hx Hxs']; subst. simpl in Hnet.
    simpl map. simpl for_each.
    rewrite (bind_ok _ _ _ _ _ (download_run_ok _ _ _ Horg Hx Hnet)).
    rewrite (IH _ rest); [|exact Horg|exact Hxs'|reflexivity].
    unfold mk_state. simpl. rewrite <- app_assoc. reflexivity.
Qed.

Lemma download_outputs_ok
    (s : state) (jid : value) (j : string) (listing : response) (body : value)
    (xs : list download) (rest : list response) :
  organization (self s) = Some org →
  format jid = Ok j →
  json_body listing = Some body →
  getitem body "resources" = Ok (VList (map dl_run xs)) →
  Forall consistent xs →
  net s = listing :: flat_map download_replies xs ++ rest →
  download_outputs pn jid s =
  (Ok tt,
   mk_state (self s) (environ s) rest (saved (files s) xs)
     (trace s
      ++ client_request (self s) GET (runs_endpoint org p j) NoBody
         :: flat_map (download_events (self s) org p) xs)).
Proof.
  intros Horg Hj Hbody Hres Hxs Hnet.
  unfold download_outputs, get_runs.
  rewrite bind_assoc.
  rewrite (bind_ok _ _ _ _ _ (Endpoints.get_runs_endpoint_ok _ _ Horg _ _ Hp _ _ Hj)).
  unfold Client_get.
  rewrite (bind_ok _ _ _ _ _ (Client_request_reply _ _ _ _ _ _ Hnet)).
  unfold json. rewrite Hbody.
  rewrite bind_eq. unfold mret at 1, M_ret.
  rewrite bind_eq. unfold lift at 1. rewrite Hres.
  rewrite bind_eq. unfold lift at 1. simpl iterate. cbv beta iota.
  rewrite (for_each_downloads xs _ rest); [|exact Horg|exact Hxs|reflexivity].
  unfold advance, mk_state. simpl. rewrite <- app_assoc. reflexivity.
Qed.

End Downloads.

(** C7. When five statuses in a row are not an end state, the script raises
    nothing and does not exit: it prints the count of attempts left after
    each of them, and then goes on, from the state polling left, to ask for
    the job's runs and to download the first output of each into its zip
    file.  What it asks for and what it saves are the same as after a job
    that completed. *)
Theorem exhausted_polling_goes_on (s : state) (org : string) (pn : value) (p : string)
    (jid : value) (j : string) (pre rest : list response) :
  organization (self s) = Some org →
  format pn = Ok p →
  format jid = Ok j →
  forallb pending pre = true →
  List.length pre = 5%nat →
  net s = pre ++ rest →
  let c := self s in
  let polled := waiting c (job_endpoint org p j) 5 5 in
  let fetched xs :=
    client_request c GET (runs_endpoint org p j) NoBody
    :: flat_map (fun x =>
         [client_request c GET
            ("/projects/" +:+ org +:+ "/" +:+ p +:+ "/runs/" +:+ dl_id x
             +:+ "/outputs/" +:+ dl_output x) NoBody;
          EvRetrieve (dl_url x) (dl_id x +:+ "-" +:+ dl_output x +:+ ".zip")]) xs in
  Main.poll_loop pn jid Main.remaining_polls (advance s (net s) [announcement]) =
    (Ok tt, advance s rest (announcement :: polled)) ∧
  printed polled =
    ["4 attempts remaining"; "3 attempts remaining"; "2 attempts remaining";
     "1 attempts remaining"; "0 attempts remaining"] ∧
  Main.await_job pn jid s =
    Main.download_outputs pn jid (advance s rest (announcement :: polled)) ∧
  (∀ listing body xs rest',
     rest = listing :: flat_map download_replies xs ++ rest' →
     json_body listing = Some body →
     getitem body "resources" = Ok (VList (map dl_run xs)) →
     Forall consistent xs →
     Main.await_job pn jid s =
       (Ok tt,
        mk_state c (environ s) rest' (saved (files s) xs)
          (trace s ++ announcement :: polled ++ fetched xs))) ∧
  (∀ s2 seen r listing body xs rest',
     self s2 = self s →
     files s2 = files s →
     forallb pending seen = true → (List.length seen < 5)%nat → completed r = true →
     net s2 = seen ++ r :: listing :: flat_map download_replies xs ++ rest' →
     json_body listing = Some body →
     getitem body "resources" = Ok (VList (map dl_run xs)) →
     Forall consistent xs →
     Main.await_job pn jid s2 =
       (Ok tt,
        mk_state c (environ s2) rest' (saved (files s) xs)
          (trace s2
           ++ announcement :: waiting c (job_endpoint org p j) 5 (List.length seen)
           ++ finishing c (job_endpoint org p j) r ++ fetched xs))).
Proof.
  intros Horg Hp Hj Hpend Hlen Hnet c polled fetched. subst c polled fetched.
  assert (Hpoll : Main.poll_loop pn jid Main.remaining_polls
                    (advance s (net s) [announcement]) =
                  (Ok tt, advance s rest
                            (announcement :: waiting (self s) (job_endpoint org p j) 5 5))).
  { unfold Main.remaining_polls.
    rewrite (poll_loop_through (advance s (net s) [announcement]) org pn p jid j pre rest
               5 0 Hp Hj Horg Hnet Hpend) by lia.
    rewrite Hlen, advance_advance. reflexivity. }
  assert (Hawait : Main.await_job pn jid s =
                   Main.download_outputs pn jid
                     (advance s rest
                        (announcement :: waiting (self s) (job_endpoint org p j) 5 5))).
  { unfold Main.await_job, print_str, print.
    rewrite (bind_ok _ _ _ _ _ (emit_advance _ _)).
    change (EvPrint _) with announcement.
    rewrite (bind_ok _ _ _ _ _ Hpoll). reflexivity. }
  split; [exact Hpoll|]. split; [reflexivity|]. split; [exact Hawait|]. split.
  - intros listing body xs rest' -> Hbody Hres Hxs.
    rewrite Hawait.
    erewrite (download_outputs_ok org pn p Hp);
      [|exact Horg|exact Hj|exact Hbody|exact Hres|exact Hxs|reflexivity].
    unfold advance, mk_state. simpl. rewrite <- app_assoc. reflexivity.
  - intros s2 seen r listing body xs rest' Hself Hfiles Hseen Hlt Hdone Hnet2
      Hbody Hres Hxs.
    assert (Horg2 : organization (self s2) = Some org) by (rewrite Hself; exact Horg).
    unfold Main.await_job, print_str, print.
    rewrite (bind_ok _ _ _ _ _ (emit_advance _ _)).
    change (EvPrint _) with announcement.
    assert (Hsum : Main.remaining_polls
                   = (List.length seen + S (4 - List.length seen))%nat)
      by (unfold Main.remaining_polls; lia).
    erewrite bind_ok;
      [|rewrite (poll_loop_through (advance s2 (net s2) [announcement]) org pn p jid j
                   seen (r :: listing :: flat_map download_replies xs ++ rest')
                   Main.remaining_polls _ Hp Hj Horg2 Hnet2 Hseen Hsum);
        erewrite poll_loop_finish;
          [|exact Hp|exact Hj|exact Horg2|reflexivity|rewrite Hdone; reflexivity];
        rewrite Hdone, !advance_advance; reflexivity].
    erewrite (download_outputs_ok org pn p Hp);
      [|exact Horg2|exact Hj|exact Hbody|exact Hres|exact Hxs|reflexivity].
    unfold advance, mk_state, Main.remaining_polls, finishing. simpl.
    rewrite Hself, Hfiles, ?Hdone, <- ?app_assoc. simpl.
    rewrite <- ?app_assoc. reflexivity.
Qed.

(** ** The properties at work in the example worlds *)

(** C3, witness. *)
Lemma endpoints_substitute_every_parameter_witness :
  organization (self (Example.ready [])) = Some "acme" ∧
  PollinationClient.get_run_output_endpoint (VStr "good-project") (VStr "R1") (VStr "out")
    (Example.ready []) =
  (Ok "/projects/acme/good-project/runs/R1/outputs/out", Example.ready []).
Proof.
  split; [reflexivity|].
  destruct (endpoints_substitute_every_parameter (Example.ready []) "acme" "good-project"
              "J1" "R1" "out" "grid/room.res" eq_refl)
    as (_ & _ & _ & _ & _ & _ & _ & _ & _ & _ & E).
  exact E.
Defined.

(** C6, witness. *)
Lemma requests_carry_token_witness :
  let calls := [GetJob Example.project_name (VStr "J1");
                AddFileToProject Example.project_name Example.model1;
                GetOrganization] in
  let replies := [Example.status_reply "Running"; Example.signed;
                  Example.reply 204 None] in
  ∃ k, environ (Example.world Example.both_variables replies) !! "POLLINATION_API_KEY"
         = Some k ∧
       headers (self (Example.ready replies)) !! PollinationClient.token_header = Some k ∧
       headers (self (@session raise_for_status_current queenbee_to_dict calls
                        (Example.ready replies)))
         !! PollinationClient.token_header = Some k ∧
       ∃ evs, trace (@session raise_for_status_current queenbee_to_dict calls
                       (Example.ready replies))
              = trace (Example.world Example.both_variables replies) ++ evs ∧
              Forall (carries_token k) evs.
Proof.
  intros calls replies.
  apply (@requests_carry_token raise_for_status_current queenbee_to_dict no_kwargs
           (Example.world Example.both_variables replies) (Example.ready replies) calls).
  vm_compute. reflexivity.
Defined.

(** C5, witness. *)
Lemma upload_is_two_step_witness :
  let s := Example.ready [Example.signed; Example.reply 204 None] in
  trace (snd (@PollinationClient.add_file_to_project raise_for_status_current
                Example.project_name Example.model1 s)) =
    [client_request (self s) POST "/projects/acme/good-project/artifacts"
       (Json (VDict [("key", VStr "model1.hbjson")]));
     EvOpen "model1.hbjson";
     EvRequest (upload_request "https://storage.example/bucket" Example.upload_fields
                  "model1.hbjson" "one")] ∧
  fst (@PollinationClient.add_file_to_project raise_for_status_current
         Example.project_name Example.model1 s) = Ok (Some (Example.reply 204 None)).
Proof.
  intros s.
  destruct (@upload_is_two_step raise_for_status_current s "acme" Example.project_name
              "good-project" Example.model1 Example.signed
              (VDict [("url", VStr "https://storage.example/bucket");
                      ("fields", Example.upload_fields)])
              "https://storage.example/bucket" Example.upload_fields "one"
              (Example.reply 204 None) []
              eq_refl eq_refl eq_refl eq_refl eq_refl eq_refl eq_refl)
    as (Estate & _ & _ & Eresult).
  split; [rewrite Estate; reflexivity | exact Eresult].
Defined.

(** C2, witness: a storage response with status 403. *)
Lemma add_file_to_project_by_status_witness :
  let s := Example.ready [Example.signed; Example.reply 403 None] in
  raises (fst (@PollinationClient.add_file_to_project raise_for_status_current
                 Example.project_name Example.model1 s)) = true.
Proof.
  intros s.
  destruct (@add_file_to_project_by_status raise_for_status_current s
              Example.project_name Example.model1 (Example.reply 403 None)
              (snd (storage_post Example.project_name Example.model1 s)) eq_refl)
    as (_ & _ & Eraises).
  apply Eraises; [exact current_raises_for_errors | reflexivity].
Defined.

(** C2, as stated, fails: a storage response with status 200 is not a 204,
    and the helper raises nothing, under either behaviour of httpx. *)
Lemma add_file_to_project_accepts_200 :
  ¬ raises_unless_204 raise_for_status_current ∧
  ¬ raises_unless_204 raise_for_status_legacy.
Proof.
  split; intros Hall;
    destruct (Hall (Example.ready [Example.signed; Example.reply 200 None])
                Example.project_name Example.model1 (Example.reply 200 None) _ eq_refl)
      as (Hraises & _);
    discriminate Hraises; discriminate.
Qed.

(** C1, witness: five statuses that are no end state, and a job that
    completes at the third check. *)
Lemma poll_loop_stops_witness :
  let s := Example.ready (Example.running ++ [Example.listing]) in
  let s' := Example.ready ([Example.status_reply "Running"; Example.status_reply "Running"]
                            ++ Example.status_reply "Completed" :: [Example.listing]) in
  let endpoint := job_endpoint "acme" "good-project" "J1" in
  Main.poll_loop Example.project_name (VStr "J1") Main.remaining_polls s =
    (Ok tt, advance s [Example.listing] (waiting (self s) endpoint 5 5)) ∧
  Main.poll_loop Example.project_name (VStr "J1") Main.remaining_polls s' =
    (Ok tt, advance s' [Example.listing]
              (waiting (self s') endpoint 5 2
               ++ finishing (self s') endpoint (Example.status_reply "Completed"))).
Proof.
  intros s s' endpoint. split.
  - destruct (poll_loop_stops s "acme" Example.project_name "good-project" (VStr "J1")
                "J1" Example.running [Example.listing] eq_refl eq_refl eq_refl eq_refl)
      as (E & _ & _).
    apply E; reflexivity.
  - destruct (poll_loop_stops s' "acme" Example.project_name "good-project" (VStr "J1")
                "J1" [Example.status_reply "Running"; Example.status_reply "Running"]
                [Example.listing] eq_refl eq_refl eq_refl eq_refl)
      as (_ & E & _).
    apply (E (Example.status_reply "Completed")); [simpl; lia | reflexivity | reflexivity].
Defined.

(** C7, witness: five statuses that are no end state, then the listing of
    one run and its download. *)
Lemma exhausted_polling_goes_on_witness :
  let s := Example.ready (Example.running
                          ++ [Example.listing; Example.link; Example.reply 200 None]) in
  fst (Main.await_job Example.project_name (VStr "J1") s) = Ok tt ∧
  files (snd (Main.await_job Example.project_name (VStr "J1") s)) !! "R1-out.zip"
    = Some "data" ∧
  through_client (trace (snd (Main.await_job Example.project_name (VStr "J1") s)))
    = 7%nat.
Proof.
  intros s.
  assert (Hruns : Forall consistent [Example.first_run])
    by (constructor; [repeat split; reflexivity | constructor]).
  destruct (exhausted_polling_goes_on s "acme" Example.project_name "good-project"
              (VStr "J1") "J1" Example.running
              [Example.listing; Example.link; Example.reply 200 None]
              eq_refl eq_refl eq_refl eq_refl eq_refl eq_refl)
    as (_ & _ & _ & E & _).
  rewrite (E Example.listing
             (VDict [("resources", VList [Example.run "R1" "out"])])
             [Example.first_run] [] eq_refl eq_refl eq_refl Hruns).
  repeat split; reflexivity.
Defined.


(** * Further properties *)

(** ** Construction in full *)

(** X1. [__init__] sends nothing and leaves the environment, the pending
    replies and the files alone.  It raises [KeyError] for the first
    variable it cannot read, [POLLINATION_API_KEY] before [POLLINATION_ORG],
    and succeeds when both are set.  The client then holds the organization
    from the environment, and its token header holds the key from the
    environment whatever the caller passed under that name. *)
Theorem init_outcome (kw : kwargs) (s : state) :
  let s' := snd (PollinationClient.init kw s) in
  fst (PollinationClient.init kw s) =
    match environ s !! "POLLINATION_API_KEY", environ s !! "POLLINATION_ORG" with
    | None, _ => Raise (KeyError "POLLINATION_API_KEY")
    | Some _, None => Raise (KeyError "POLLINATION_ORG")
    | Some _, Some _ => Ok tt
    end ∧
  environ s' = environ s ∧ net s' = net s ∧ files s' = files s ∧ trace s' = trace s ∧
  organization (self s') =
    (environ s !! "POLLINATION_API_KEY" ≫= fun _ => environ s !! "POLLINATION_ORG") ∧
  (∀ k, environ s !! "POLLINATION_API_KEY" = Some k →
        headers (self s') !! PollinationClient.token_header = Some k).
Proof.
  intros s'. subst s'. rewrite init_eq.
  destruct (environ s !! "POLLINATION_API_KEY") as [k|];
    [destruct (environ s !! "POLLINATION_ORG") as [o|]|]; simpl;
    repeat split; try reflexivity;
    intros k' Hk'; try discriminate;
    injection Hk' as <-; apply lookup_insert_eq.
Qed.

(** ** What a call costs *)

Lemma through_client_app evs evs' :
  through_client (evs ++ evs') = (through_client evs + through_client evs')%nat.
Proof.
  induction evs as [|[r| | | |] evs IH]; simpl; try exact IH; [reflexivity|].
  rewrite IH. lia.
Qed.

Lemma standalone_app evs evs' :
  standalone (evs ++ evs') = (standalone evs + standalone evs')%nat.
Proof.
  induction evs as [|[r| | | |] evs IH]; simpl; try exact IH; [reflexivity|].
  rewrite IH. lia.
Qed.

Lemma slept_app evs evs' : slept (evs ++ evs') = slept evs + slept evs'.
Proof.
  induction evs as [|[r| | |n|] evs IH]; simpl; try exact IH; [reflexivity|].
  rewrite IH. lia.
Qed.

Lemma silent_ret {A} (a : A) : silent (mret a : M A).
Proof. intros s. reflexivity. Qed.

Lemma silent_lift {A} (o : outcome A) : silent (lift o).
Proof. intros s. reflexivity. Qed.

Lemma silent_raise {A} (e : exn) : silent (raise e : M A).
Proof. intros s. reflexivity. Qed.

Lemma silent_gets {A} (f : state → A) : silent (gets f).
Proof. intros s. reflexivity. Qed.

Lemma silent_json res : silent (json res).
Proof. intros s. unfold json. destruct (json_body res); reflexivity. Qed.

Lemma silent_bind {A B} (m : M A) (f : A → M B) :
  silent m → (∀ a, silent (f a)) → silent (m ≫= f).
Proof.
  intros Hm Hf s. rewrite bind_eq. specialize (Hm s).
  destruct (m s) as [[a|e] s1]; simpl in Hm; subst s1; [apply Hf | reflexivity].
Qed.

Ltac silent_step :=
  first
    [ apply silent_ret | apply silent_lift | apply silent_raise | apply silent_gets
    | apply silent_json
    | apply silent_bind; [|intros ?]
    | match goal with
      | |- silent (match ?x with _ => _ end) => destruct x
      end ].

Lemma costs_weaken {A} (a b a' b' : nat) (z z' : Z) (m : M A) :
  (a ≤ a')%nat → (b ≤ b')%nat → z ≤ z' → costs a b z m → costs a' b' z' m.
Proof.
  intros Ha Hb Hz Hm s. destruct (Hm s) as (He & Hf & evs & Ht & H1 & H2 & H3).
  split; [exact He|]. split; [exact Hf|]. exists evs. repeat split; try lia. exact Ht.
Qed.

Lemma costs_silent {A} (m : M A) : silent m → costs 0 0 0 m.
Proof.
  intros Hm s. rewrite Hm. split; [reflexivity|]. split; [reflexivity|].
  exists []. rewrite Hm, app_nil_r. simpl. repeat split; first [reflexivity | lia].
Qed.

Lemma costs_bind {A B} (a b a' b' : nat) (z z' : Z) (m : M A) (f : A → M B) :
  0 ≤ z' →
  costs a b z m → (∀ x, costs a' b' z' (f x)) →
  costs (a + a') (b + b') (z + z') (m ≫= f).
Proof.
  intros Hz' Hm Hf s. rewrite bind_eq.
  destruct (Hm s) as (He & Hfs & evs & Ht & H1 & H2 & H3).
  destruct (m s) as [[x|e] s1]; simpl in He, Hfs, Ht.
  - destruct (Hf x s1) as (He' & Hfs' & evs' & Ht' & H1' & H2' & H3').
    split; [congruence|]. split; [congruence|]. exists (evs ++ evs').
    rewrite through_client_app, standalone_app, slept_app, Ht', Ht, app_assoc.
    repeat split; first [reflexivity | lia].
  - split; [exact He|]. split; [exact Hfs|]. exists evs. repeat split; try lia. exact Ht.
Qed.

Lemma costs_emit_print p : costs 0 0 0 (print p).
Proof.
  intros s. split; [reflexivity|]. split; [reflexivity|].
  eexists. split; [reflexivity|]. simpl. repeat split; first [reflexivity | lia].
Qed.

Lemma costs_sleep n : costs 0 0 n (sleep n).
Proof.
  intros s. split; [reflexivity|]. split; [reflexivity|].
  eexists. split; [reflexivity|]. simpl. repeat split; first [reflexivity | lia].
Qed.

Lemma costs_Client_request m endpoint b : costs 1 0 0 (Client_request m endpoint b).
Proof.
  intros s. unfold Client_request, receive, emit. munfold. simpl.
  destruct (net s) as [|r rest]; simpl;
    (split; [reflexivity|]; split; [reflexivity|];
     eexists; split; [reflexivity|]; simpl; repeat split; first [reflexivity | lia]).
Qed.

Lemma costs_Artifact_upload body url fields : costs 0 1 0 (Artifact_upload body url fields).
Proof.
  intros s. unfold Artifact_upload, httpx_post, receive, emit. munfold. simpl.
  destruct (files s !! Payload.key body) as [data|]; simpl.
  - destruct url; simpl;
      try (split; [reflexivity|]; split; [reflexivity|];
           eexists; split; [reflexivity|]; simpl; repeat split; first [reflexivity | lia]).
    destruct (net s) as [|r rest]; simpl;
      (split; [reflexivity|]; split; [reflexivity|];
       eexists; split; [rewrite <- app_assoc; reflexivity|]; simpl; repeat split; first [reflexivity | lia]).
  - split; [reflexivity|]. split; [reflexivity|].
    exists []. rewrite app_nil_r. simpl. repeat split; first [reflexivity | lia].
Qed.

Section Costs.
Context `{Httpx} `{Queenbee}.
Import PollinationClient.

Lemma silent_self_organization : silent self_organization.
Proof. unfold self_organization. repeat silent_step. Qed.

(** A method that formats an endpoint and sends one request. *)
Lemma costs_one_request {A} (endpoint : M string) (send : string → M A) :
  silent endpoint → (∀ e, costs 1 0 0 (send e)) → costs 1 0 0 (endpoint ≫= send).
Proof.
  intros He Hs. apply (costs_bind 0 0 1 0 0 0); [lia | apply costs_silent, He | exact Hs].
Qed.

Ltac silent_endpoint :=
  repeat first [ apply silent_self_organization | silent_step ].

Lemma costs_add_file_to_project pn body : costs 1 1 0 (add_file_to_project pn body).
Proof.
  unfold add_file_to_project.
  apply (costs_bind 0 0 1 1 0 0);
    [lia | apply costs_silent; unfold add_file_to_project_endpoint; silent_endpoint |].
  intros endpoint.
  apply (costs_bind 1 0 0 1 0 0); [lia | apply costs_Client_request |].
  intros res.
  apply (costs_bind 0 0 0 1 0 0); [lia | apply costs_silent, silent_json |].
  intros res_body.
  apply (costs_bind 0 0 0 1 0 0); [lia | apply costs_silent, silent_lift |].
  intros url.
  apply (costs_bind 0 0 0 1 0 0); [lia | apply costs_silent, silent_lift |].
  intros fields.
  apply (costs_bind 0 1 0 0 0 0); [lia | apply costs_Artifact_upload |].
  intros res'. apply costs_silent.
  destruct (status_code res' =? 204); silent_step.
Qed.

(** X2. No endpoint method retries or does anything on the side, whatever
    the replies and whatever state the client is in: a call sends at most
    one request through the client (and an upload at most one more, to
    storage), never sleeps, and leaves the environment and the local files
    as they were. *)
Theorem perform_costs (c : call) :
  costs 1 (storage_budget c) 0 (perform c).
Proof.
  destruct c; unfold perform, storage_budget.
  all: try (apply (costs_bind 1 0 0 0 0 0);
            [lia | | intros ?; apply costs_silent, silent_ret]).
  - unfold get_organization, org_endpoint.
    apply costs_one_request; [silent_endpoint | intros e; apply costs_Client_request].
  - unfold create_project, create_project_endpoint.
    apply costs_one_request; [silent_endpoint | intros e; apply costs_Client_request].
  - unfold add_recipe_to_project, add_recipe_to_project_endpoint.
    apply costs_one_request; [silent_endpoint | intros e; apply costs_Client_request].
  - apply (costs_bind 1 1 0 0 0 0);
      [lia | apply costs_add_file_to_project | intros ?; apply costs_silent, silent_ret].
  - unfold create_job, create_job_endpoint.
    apply costs_one_request; [silent_endpoint | intros e; apply costs_Client_request].
  - unfold get_job, get_job_endpoint.
    apply costs_one_request; [silent_endpoint | intros e; apply costs_Client_request].
  - unfold list_jobs, list_jobs_endpoint.
    apply costs_one_request; [silent_endpoint | intros e; apply costs_Client_request].
  - unfold list_job_artifacts, list_job_artifacts_endpoint.
    apply costs_one_request; [silent_endpoint | intros e; apply costs_Client_request].
  - unfold get_job_artifact_link, get_job_artifact_link_endpoint.
    apply costs_one_request; [silent_endpoint | intros e; apply costs_Client_request].
  - unfold get_runs, get_runs_endpoint.
    apply costs_one_request; [silent_endpoint | intros e; apply costs_Client_request].
  - unfold get_run_output, get_run_output_endpoint.
    apply costs_one_request; [silent_endpoint | intros e; apply costs_Client_request].
Qed.

Lemma costs_get_job pn jid : costs 1 0 0 (get_job pn jid).
Proof.
  unfold get_job, get_job_endpoint.
  apply costs_one_request; [silent_endpoint | intros e; apply costs_Client_request].
Qed.

(** X3. Whatever the service replies, well-formed or not, the polling loop
    entered with [n] polls left sends at most [n] status requests and sleeps
    at most [60 * n] seconds, sends nothing outside the client, and leaves
    the environment and the local files as they were: at most five requests
    and 300 seconds for the script. *)
Theorem poll_loop_costs (pn jid : value) (n : nat) :
  costs n 0 (60 * Z.of_nat n) (Main.poll_loop pn jid n).
Proof.
  induction n as [|n IH].
  - simpl. apply costs_silent, silent_ret.
  - simpl Main.poll_loop.
    apply (costs_weaken (1 + n) (0 + 0) _ _ (0 + (60 + 60 * Z.of_nat n)));
      [lia | lia | lia |].
    apply costs_bind; [lia | apply costs_get_job |]. intros res.
    apply (costs_weaken (0 + n) (0 + 0) _ _ (0 + (60 + 60 * Z.of_nat n)));
      [lia | lia | lia |].
    apply costs_bind; [lia | apply costs_silent, silent_json |]. intros body.
    apply (costs_weaken (0 + n) (0 + 0) _ _ (0 + (60 + 60 * Z.of_nat n)));
      [lia | lia | lia |].
    apply costs_bind; [lia | apply costs_silent, silent_lift |]. intros st.
    apply (costs_weaken (0 + n) (0 + 0) _ _ (0 + (60 + 60 * Z.of_nat n)));
      [lia | lia | lia |].
    apply costs_bind; [lia | apply costs_silent, silent_lift |]. intros job_status.
    destruct (eq_str job_status "Completed").
    + apply (costs_weaken 0 0 _ _ 0); [lia | lia | lia | apply costs_emit_print].
    + destruct (eq_str job_status "Cancelled").
      * apply (costs_weaken (0 + 0) (0 + 0) _ _ (0 + 0)); [lia | lia | lia |].
        apply costs_bind; [lia | apply costs_emit_print |].
        intros _. apply costs_silent, silent_raise.
      * apply (costs_weaken (0 + n) (0 + 0) _ _ (60 + 60 * Z.of_nat n));
          [lia | lia | lia |].
        apply costs_bind; [lia | apply costs_sleep |]. intros _.
        apply (costs_weaken (0 + n) (0 + 0) _ _ (0 + 60 * Z.of_nat n));
          [lia | lia | lia |].
        apply costs_bind; [lia | apply costs_emit_print |]. intros _. exact IH.
Qed.
End Costs.

(** ** What the methods return *)

Section Raw.
Context `{Queenbee}.
Import PollinationClient.

Variables (s : state) (org : string).
Hypothesis Horg : organization (self s) = Some org.
Variables (pn : value) (p : string) (jid : value) (j : string).
Variables (rid : value) (r : string) (out : value) (o : string) (ap : value) (a : string).
Hypothesis Hp : format pn = Ok p.
Hypothesis Hj : format jid = Ok j.
Hypothesis Hr : format rid = Ok r.
Hypothesis Ho : format out = Ok o.
Hypothesis Ha : format ap = Ok a.
Variables (reply : response) (rest : list response).
Hypothesis Hnet : net s = reply :: rest.

(** Runs the method of the goal: the endpoint is formatted, then the one
    request is answered by [reply]. *)
Ltac one_request :=
  erewrite bind_ok;
  [ apply Client_request_reply, Hnet
  | Endpoints.format_endpoint Horg ].

(** X4. Each endpoint method other than the upload sends exactly one
    request through the client, a GET without body or a POST with the
    payload's dict as JSON, consumes exactly one reply and returns that
    reply as it is, whatever its status code: no status is checked and
    nothing is raised for an error response. *)
Theorem methods_return_the_reply
    (create : Payload.Create) (filter : Payload.RecipeFilter) (job : Payload.Job) :
  let sent m endpoint b :=
    (Ok reply, advance s rest [client_request (self s) m endpoint b]) in
  let project := "/projects/" +:+ org +:+ "/" +:+ p in
  get_organization s = sent GET ("/accounts/" +:+ org) NoBody ∧
  create_project create s =
    sent POST ("/projects/" +:+ org) (Json (Payload.to_dict create)) ∧
  add_recipe_to_project pn filter s =
    sent POST ("/projects/" +:+ org +:+ "/" +:+ p +:+ "/recipes/filters")
      (Json (Payload.to_dict filter)) ∧
  create_job pn job s =
    sent POST ("/projects/" +:+ org +:+ "/" +:+ p +:+ "/jobs")
      (Json (Payload.Job_to_dict job)) ∧
  get_job pn jid s =
    sent GET ("/projects/" +:+ org +:+ "/" +:+ p +:+ "/jobs/" +:+ j) NoBody ∧
  list_jobs pn s = sent GET ("/projects/" +:+ org +:+ "/" +:+ p +:+ "/jobs") NoBody ∧
  list_job_artifacts pn jid s =
    sent GET ("/projects/" +:+ org +:+ "/" +:+ p +:+ "/jobs/" +:+ j +:+ "/artifacts")
      NoBody ∧
  get_job_artifact_link pn jid ap s =
    sent GET (("/projects/" +:+ org +:+ "/" +:+ p +:+ "/jobs/" +:+ j
               +:+ "/artifacts/downloads") +:+ "?path=" +:+ a) NoBody ∧
  get_runs pn jid s =
    sent GET (("/projects/" +:+ org +:+ "/" +:+ p +:+ "/runs") +:+ "?job_id=" +:+ j)
      NoBody ∧
  get_run_output pn rid out s =
    sent GET ("/projects/" +:+ org +:+ "/" +:+ p +:+ "/runs/" +:+ r +:+ "/outputs/" +:+ o)
      NoBody.
Proof.
  intros sent project. subst sent project. repeat split.
  - unfold get_organization, Client_get, org_endpoint. one_request.
  - unfold create_project, Client_post, create_project_endpoint. one_request.
  - unfold add_recipe_to_project, Client_post, add_recipe_to_project_endpoint.
    one_request.
  - unfold create_job, Client_post, create_job_endpoint. one_request.
  - unfold get_job, Client_get, get_job_endpoint. one_request.
  - unfold list_jobs, Client_get, list_jobs_endpoint. one_request.
  - unfold list_job_artifacts, Client_get, list_job_artifacts_endpoint. one_request.
  - unfold get_job_artifact_link, Client_get, get_job_artifact_link_endpoint.
    one_request.
  - unfold get_runs, Client_get, get_runs_endpoint. one_request.
  - unfold get_run_output, Client_get, get_run_output_endpoint. one_request.
Qed.
End Raw.

(** ** Uploads that fail *)

Section UploadFails.
Context `{Httpx}.
Import PollinationClient.

Lemma add_file_to_project_announced s org pn p body r1 rest :
  organization (self s) = Some org →
  format pn = Ok p →
  net s = r1 :: rest →
  add_file_to_project pn body s =
  match announced r1 with
  | Ok (url, fields) =>
      (res ← Artifact_upload body url fields;
       if status_code res =? 204 then mret (Some res) else lift (raise_for_status res))
        (advance s rest [client_request (self s) POST (artifacts_endpoint org p)
                           (Json (Payload.to_dict body))])
  | Raise e =>
      (Raise e, advance s rest [client_request (self s) POST (artifacts_endpoint org p)
                                  (Json (Payload.to_dict body))])
  end.
Proof.
  intros Horg Hp Hnet. unfold add_file_to_project.
  rewrite (bind_ok _ _ _ _ _ (Endpoints.add_file_to_project_endpoint_ok _ _ Horg _ _ Hp)).
  unfold Client_post.
  rewrite (bind_ok _ _ _ _ _ (Client_request_reply _ _ _ _ _ _ Hnet)).
  unfold announced, json. destruct (json_body r1) as [b|]; [|reflexivity].
  rewrite bind_eq. unfold mret at 1, M_ret.
  rewrite bind_eq. unfold lift at 1.
  destruct (getitem b "url") as [url|e]; [|reflexivity].
  rewrite bind_eq. unfold lift at 1.
  destruct (getitem b "fields") as [fields|e]; reflexivity.
Qed.

(** X5. The upload helper never looks at the status of the reply to the
    announcement.  When that reply is not JSON, or its JSON has no ['url'],
    or no ['fields'], the helper raises the decoding error or the
    [KeyError] of the first missing key, after that one request: the local
    file is not opened and nothing is sent to storage. *)
Theorem upload_needs_signed_url s org pn p body r1 rest e :
  organization (self s) = Some org →
  format pn = Ok p →
  net s = r1 :: rest →
  announced r1 = Raise e →
  add_file_to_project pn body s =
  (Raise e,
   advance s rest
     [client_request (self s) POST ("/projects/" +:+ org +:+ "/" +:+ p +:+ "/artifacts")
        (Json (VDict [("key", VStr (Payload.key body))]))]).
Proof.
  intros Horg Hp Hnet He.
  rewrite (add_file_to_project_announced _ _ _ _ _ _ _ Horg Hp Hnet), He. reflexivity.
Qed.

End UploadFails.

(** ** Polling that ends badly *)

Lemma fetch_status_raise {A} r e (k : value → M A) s :
  job_status r = Raise e →
  (body ← json r; st ← lift (getitem body "status");
   job_status ← lift (getitem st "status"); k job_status) s = (Raise e, s).
Proof.
  unfold job_status, json. destruct (json_body r) as [b|].
  - munfold. simpl. destruct (getitem b "status") as [st|e']; simpl.
    + intros ->. reflexivity.
    + intros [= ->]. reflexivity.
  - intros [= <-]. reflexivity.
Qed.

Lemma poll_loop_bad_status s org pn p jid j r rest n e :
  format pn = Ok p → format jid = Ok j →
  organization (self s) = Some org →
  net s = r :: rest →
  job_status r = Raise e →
  Main.poll_loop pn jid (S n) s =
  (Raise e, advance s rest [status_check (self s) (job_endpoint org p j)]).
Proof.
  intros Hp Hj Horg Hnet He. simpl Main.poll_loop.
  rewrite (bind_ok _ _ _ _ _ (get_job_reply org pn p jid j Hp Hj _ _ _ Horg Hnet)).
  apply fetch_status_raise, He.
Qed.

(** X7. A status reply the loop cannot read (no JSON, no ['status'], no
    ['status']['status']) is not retried: the loop raises the error at
    that check, without sleeping after it, and the script stops there,
    before any run is listed. *)
Theorem unreadable_status_stops_the_script (s : state) (org : string) (pn : value)
    (p : string) (jid : value) (j : string) (pre : list response) (r : response)
    (rest : list response) (e : exn) :
  organization (self s) = Some org →
  format pn = Ok p →
  format jid = Ok j →
  forallb pending pre = true →
  (List.length pre < 5)%nat →
  net s = pre ++ r :: rest →
  job_status r = Raise e →
  let check := status_check (self s) (job_endpoint org p j) in
  let polled := waiting (self s) (job_endpoint org p j) 5 (List.length pre) in
  Main.poll_loop pn jid 5 s = (Raise e, advance s rest (polled ++ [check])) ∧
  Main.await_job pn jid s = (Raise e, advance s rest (announcement :: polled ++ [check])).
Proof.
  intros Horg Hp Hj Hpend Hlen Hnet He check polled. subst check polled.
  assert (Hsum : 5%nat = (List.length pre + S (4 - List.length pre))%nat) by lia.
  split.
  - rewrite (poll_loop_through s org pn p jid j pre (r :: rest) 5 _ Hp Hj Horg Hnet
               Hpend Hsum).
    erewrite poll_loop_bad_status;
      [|exact Hp|exact Hj|exact Horg|reflexivity|exact He].
    rewrite advance_advance. reflexivity.
  - unfold Main.await_job, Main.remaining_polls, print_str, print.
    rewrite (bind_ok _ _ _ _ _ (emit_advance _ _)).
    change (EvPrint _) with announcement.
    erewrite bind_raise; [reflexivity|].
    rewrite (poll_loop_through (advance s (net s) [announcement]) org pn p jid j pre
               (r :: rest) 5 _ Hp Hj Horg Hnet Hpend Hsum).
    erewrite poll_loop_bad_status;
      [|exact Hp|exact Hj|exact Horg|reflexivity|exact He].
    rewrite !advance_advance. reflexivity.
Qed.

(** X8. When a status check finds the job cancelled, the script ends with
    [SystemExit] right after printing so: it lists no runs and downloads
    nothing, and the replies still pending stay unread. *)
Theorem cancelled_job_ends_the_script (s : state) (org : string) (pn : value)
    (p : string) (jid : value) (j : string) (pre : list response) (r : response)
    (rest : list response) :
  organization (self s) = Some org →
  format pn = Ok p →
  format jid = Ok j →
  forallb pending pre = true →
  (List.length pre < 5)%nat →
  net s = pre ++ r :: rest →
  cancelled r = true →
  Main.await_job pn jid s =
  (Raise SystemExit,
   advance s rest
     (announcement :: waiting (self s) (job_endpoint org p j) 5 (List.length pre)
      ++ [status_check (self s) (job_endpoint org p j);
          EvPrint (PValue (VStr "Job cancelled!"))])).
Proof.
  intros Horg Hp Hj Hpend Hlen Hnet Hc.
  assert (Hsum : 5%nat = (List.length pre + S (4 - List.length pre))%nat) by lia.
  assert (Hnot : completed r = false).
  { unfold cancelled, completed in *. destruct (job_status r) as [v|]; [|reflexivity].
    apply andb_prop in Hc as [Hc _]. apply negb_true_iff in Hc. exact Hc. }
  unfold Main.await_job, Main.remaining_polls, print_str, print.
  rewrite (bind_ok _ _ _ _ _ (emit_advance _ _)).
  change (EvPrint (PValue (VStr ("Waiting up to " +:+ _)))) with announcement.
  erewrite bind_raise; [reflexivity|].
  rewrite (poll_loop_through (advance s (net s) [announcement]) org pn p jid j pre
             (r :: rest) 5 _ Hp Hj Horg Hnet Hpend Hsum).
  erewrite poll_loop_finish;
    [|exact Hp|exact Hj|exact Horg|reflexivity|rewrite Hc; apply orb_true_r].
  unfold finishing. rewrite Hnot, !advance_advance. reflexivity.
Qed.

(** ** Downloads that stop early *)

Section DownloadsStop.
Import PollinationClient Main.

Variables (org : string) (pn : value) (p : string).
Hypothesis Hp : format pn = Ok p.

Lemma download_run_unreadable s run e :
  run_fields run = Raise e → download_run pn run s = (Raise e, s).
Proof.
  unfold run_fields, first_output_name, download_run. intros He.
  rewrite bind_eq. unfold lift at 1.
  destruct (getitem run "id") as [idv|e1]; simpl in He;
    [|injection He as <-; reflexivity].
  rewrite bind_eq. unfold lift at 1.
  destruct (getitem run "status") as [st|e1]; simpl in He;
    [|injection He as <-; reflexivity].
  rewrite bind_eq. unfold lift at 1.
  destruct (getitem st "outputs") as [outs|e1]; simpl in He;
    [|injection He as <-; reflexivity].
  rewrite bind_eq. unfold lift at 1.
  destruct (getitem0 outs) as [out|e1]; simpl in He;
    [|injection He as <-; reflexivity].
  rewrite bind_eq. unfold lift at 1.
  destruct (getitem out "name") as [namev|e1]; simpl in He; [discriminate|].
  injection He as <-. reflexivity.
Qed.

Lemma for_each_downloads_then xs more : ∀ s rest,
  organization (self s) = Some org →
  Forall consistent xs →
  net s = flat_map download_replies xs ++ rest →
  for_each (map dl_run xs ++ more) (download_run pn) s =
  for_each more (download_run pn)
    (mk_state (self s) (environ s) rest (saved (files s) xs)
       (trace s ++ flat_map (download_events (self s) org p) xs)).
Proof.
  induction xs as [|x xs IH]; intros s rest Horg Hxs Hnet.
  - simpl in *. subst rest. destruct s. unfold mk_state. simpl.
    rewrite app_nil_r. reflexivity.
  - inversion Hxs as [|? ? Hx Hxs']; subst. simpl in Hnet.
    simpl map. simpl app. simpl for_each.
    rewrite (bind_ok _ _ _ _ _ (download_run_ok org pn p Hp _ _ _ Horg Hx Hnet)).
    rewrite (IH _ rest); [|exact Horg|exact Hxs'|reflexivity].
    unfold mk_state. simpl. rewrite <- app_assoc. reflexivity.
Qed.

(** X9. The download loop stops at the first run it cannot read: a run
    without ['id'], or whose ['status']['outputs'] is missing or empty
    (as for a job that has not finished), raises [KeyError] or
    [IndexError] before any request is made for it.  The outputs of the
    runs listed before it have been saved and stay; the runs after it are
    not looked at. *)
Theorem download_stops_at_unreadable_run
    (s : state) (jid : value) (j : string) (listing : response) (body : value)
    (xs : list download) (bad : value) (more : list value) (rest : list response)
    (e : exn) :
  organization (self s) = Some org →
  format jid = Ok j →
  json_body listing = Some body →
  getitem body "resources" = Ok (VList (map dl_run xs ++ bad :: more)) →
  Forall consistent xs →
  run_fields bad = Raise e →
  net s = listing :: flat_map download_replies xs ++ rest →
  download_outputs pn jid s =
  (Raise e,
   mk_state (self s) (environ s) rest (saved (files s) xs)
     (trace s
      ++ client_request (self s) GET (runs_endpoint org p j) NoBody
         :: flat_map (download_events (self s) org p) xs)).
Proof.
  intros Horg Hj Hbody Hres Hxs Hbad Hnet.
  unfold download_outputs, get_runs.
  rewrite bind_assoc.
  rewrite (bind_ok _ _ _ _ _ (Endpoints.get_runs_endpoint_ok _ _ Horg _ _ Hp _ _ Hj)).
  unfold Client_get.
  rewrite (bind_ok _ _ _ _ _ (Client_request_reply _ _ _ _ _ _ Hnet)).
  unfold json. rewrite Hbody.
  rewrite bind_eq. unfold mret at 1, M_ret.
  rewrite bind_eq. unfold lift at 1. rewrite Hres.
  rewrite bind_eq. unfold lift at 1. simpl iterate. cbv beta iota.
  rewrite (for_each_downloads_then xs _ _ rest); [|exact Horg|exact Hxs|reflexivity].
  simpl for_each.
  rewrite (bind_raise _ _ _ _ _ (download_run_unreadable _ _ _ Hbad)).
  unfold advance, mk_state. simpl. rewrite <- app_assoc. reflexivity.
Qed.
End DownloadsStop.

(** ** From the uploads to the job *)

Section Submit.
Context `{Httpx} `{Queenbee}.
Import PollinationClient Main.

Lemma create_project_reply s org body r rest :
  organization (self s) = Some org →
  net s = r :: rest →
  create_project body s =
  (Ok r, advance s rest [client_request (self s) POST ("/projects/" +:+ org)
                           (Json (Payload.to_dict body))]).
Proof.
  intros Horg Hnet. unfold create_project, Client_post, create_project_endpoint.
  erewrite bind_ok; [apply Client_request_reply, Hnet | Endpoints.format_endpoint Horg].
Qed.

Lemma add_recipe_to_project_reply s org pn p body r rest :
  organization (self s) = Some org →
  format pn = Ok p →
  net s = r :: rest →
  add_recipe_to_project pn body s =
  (Ok r, advance s rest
           [client_request (self s) POST
              ("/projects/" +:+ org +:+ "/" +:+ p +:+ "/recipes/filters")
              (Json (Payload.to_dict body))]).
Proof.
  intros Horg Hp Hnet.
  unfold add_recipe_to_project, Client_post, add_recipe_to_project_endpoint.
  erewrite bind_ok; [apply Client_request_reply, Hnet | Endpoints.format_endpoint Horg].
Qed.

Lemma create_job_reply s org pn p body r rest :
  organization (self s) = Some org →
  format pn = Ok p →
  net s = r :: rest →
  create_job pn body s =
  (Ok r, advance s rest
           [client_request (self s) POST ("/projects/" +:+ org +:+ "/" +:+ p +:+ "/jobs")
              (Json (Payload.Job_to_dict body))]).
Proof.
  intros Horg Hp Hnet. unfold create_job, Client_post, create_job_endpoint.
  erewrite bind_ok; [apply Client_request_reply, Hnet | Endpoints.format_endpoint Horg].
Qed.

Lemma add_file_to_project_stored s org x rest :
  organization (self s) = Some org →
  uploadable (files s) x →
  net s = up_announce x :: up_stored x :: rest →
  add_file_to_project (VStr "good-project") {| Payload.key := up_name x |} s =
  (Ok (Some (up_stored x)),
   advance s rest
     (upload_events (self s) org "good-project" {| Payload.key := up_name x |}
        (up_url x) (up_fields x) (up_data x))).
Proof.
  intros Horg (Hann & Hfile & Hcode) Hnet.
  unfold announced in Hann.
  destruct (json_body (up_announce x)) as [b|] eqn:Hb; [|discriminate].
  destruct (getitem b "url") as [url|] eqn:Hurl; [|discriminate]. simpl in Hann.
  destruct (getitem b "fields") as [fields|] eqn:Hfields; [|discriminate].
  simpl in Hann. injection Hann as -> ->.
  rewrite add_file_to_project_split.
  rewrite (bind_ok _ _ _ _ _
             (storage_post_ok s org (VStr "good-project") "good-project"
                {| Payload.key := up_name x |} _ _ _ _ _ _ _
                Horg eq_refl Hnet Hb Hurl Hfields Hfile)).
  rewrite Hcode. reflexivity.
Qed.

(** X10. When every upload goes through, the upload loop returns the
    arguments it was given followed by one group per file, in the order of
    the files, each group holding the single argument ['model'] whose
    source is the project folder path of that file; it has sent the
    announcement and the storage request of each file in turn and printed
    each storage response. *)
Theorem upload_loop_builds_arguments (us : list upload) :
  ∀ (s : state) (org : string) (acc : list (list JobPathArgument)) (rest : list response),
  organization (self s) = Some org →
  Forall (uploadable (files s)) us →
  net s = flat_map upload_replies us ++ rest →
  upload_loop (map up_name us) acc s =
  (Ok (acc ++ map (fun x => [model_argument (up_name x)]) us),
   advance s rest (flat_map (upload_and_print (self s) org) us)).
Proof.
  induction us as [|x us IH]; intros s org acc rest Horg Hus Hnet.
  - simpl in *. subst rest. rewrite advance_nil, app_nil_r. reflexivity.
  - inversion Hus as [|? ? Hx Hus']; subst. simpl in Hnet.
    simpl map. simpl upload_loop.
    rewrite (bind_ok _ _ _ _ _ (add_file_to_project_stored _ _ _ _ Horg Hx Hnet)).
    unfold print. rewrite (bind_ok _ _ _ _ _ (emit_advance _ _)), advance_advance.
    rewrite (IH _ org _ rest); [|exact Horg|exact Hus'|reflexivity].
    rewrite advance_advance, <- app_assoc. reflexivity.
Qed.

(** X11. With both variables set and a service that answers every step,
    the script does its steps in this order, one request each: it creates
    the project, attaches the recipe, uploads the two models, and only then
    creates the job.  The job it posts names the recipe under the API's
    registry and has one argument group per model, in the order uploaded;
    the ['id'] of the reply is the job that is then polled. *)
Theorem main_submits_job (s : state) (k o : string)
    (r_project r_recipe r_job : response) (jp jr jj job_id : value)
    (us : list upload) (rest : list response) :
  environ s !! "POLLINATION_API_KEY" = Some k →
  environ s !! "POLLINATION_ORG" = Some o →
  json_body r_project = Some jp →
  json_body r_recipe = Some jr →
  map up_name us = file_names →
  Forall (uploadable (files s)) us →
  json_body r_job = Some jj →
  getitem jj "id" = Ok job_id →
  net s = r_project :: r_recipe :: flat_map upload_replies us ++ r_job :: rest →
  let c := constructed no_kwargs (Some k) (Some o) in
  main s =
  await_job (VStr "good-project") job_id
    (mk_state c (environ s) rest (files s)
       (trace s
        ++ [client_request c POST ("/projects/" +:+ o)
              (Json (VDict [("name", VStr "good-project");
                            ("description", VStr "A very good project");
                            ("public", VBool false)]));
            EvPrint (PValue jp);
            client_request c POST ("/projects/" +:+ o +:+ "/good-project/recipes/filters")
              (Json (VDict [("owner", VStr "ladybug-tools");
                            ("name", VStr "daylight-factor");
                            ("tag", VStr "0.5.6")]));
            EvPrint (PValue jr)]
        ++ flat_map (upload_and_print c o) us
        ++ [client_request c POST ("/projects/" +:+ o +:+ "/good-project/jobs")
              (Json (VDict [("source", VStr recipe_source_url);
                            ("arguments",
                             VList (map (fun name =>
                                           VList [arg_to_dict (model_argument name)])
                                      file_names))]));
            EvPrint (PValue jj)])).
Proof.
  intros Hk Ho Hjp Hjr Hnames Hus Hjj Hid Hnet c. subst c.
  unfold main.
  erewrite bind_ok; [|rewrite init_eq, Hk, Ho; reflexivity].
  set (c := constructed no_kwargs (Some k) (Some o)).
  (* the project *)
  erewrite bind_ok;
    [|apply (create_project_reply _ o); [reflexivity | exact Hnet]].
  cbv beta. rewrite bind_eq. unfold json at 1. rewrite Hjp.
  unfold mret at 1, M_ret. cbv beta iota.
  unfold print. rewrite (bind_ok _ _ _ _ _ (emit_advance _ _)), advance_advance.
  (* the recipe *)
  erewrite bind_ok;
    [|apply (add_recipe_to_project_reply _ o _ "good-project");
      [reflexivity | reflexivity | reflexivity]].
  cbv beta. rewrite bind_eq. unfold json at 1. rewrite Hjr.
  unfold mret at 1, M_ret. cbv beta iota.
  unfold print. rewrite (bind_ok _ _ _ _ _ (emit_advance _ _)), !advance_advance.
  (* the uploads *)
  rewrite <- Hnames.
  erewrite bind_ok;
    [|eapply (upload_loop_builds_arguments us _ o [] (r_job :: rest));
      [reflexivity | exact Hus | reflexivity]].
  rewrite advance_advance.
  rewrite bind_eq. unfold gets at 1. cbv beta iota.
  (* the job *)
  erewrite bind_ok;
    [|apply (create_job_reply _ o _ "good-project");
      [reflexivity | reflexivity | reflexivity]].
  cbv beta. rewrite bind_eq. unfold json at 1. rewrite Hjj.
  unfold mret at 1, M_ret. cbv beta iota.
  unfold print. rewrite (bind_ok _ _ _ _ _ (emit_advance _ _)), !advance_advance.
  rewrite bind_eq. unfold json at 1. rewrite Hjj.
  unfold mret at 1, M_ret. cbv beta iota.
  rewrite bind_eq. unfold lift at 1. rewrite Hid. cbv beta iota.
  unfold Payload.Job_to_dict. rewrite args_loop_app.
  unfold advance, mk_state. simpl. rewrite !map_map. reflexivity.
Qed.
End Submit.

(** ** The user-info script *)

(** X12. With [POLLINATION_API_KEY] set, the user-info script sends exactly
    one request, a GET of [/user] at the API's base URL carrying the token,
    and prints the decoded reply whatever its status; a reply that is not
    JSON raises the decoding error after the request.  [POLLINATION_ORG]
    plays no part. *)
Theorem get_user_sends_one_request (s : state) (k : string) (r : response)
    (rest : list response) :
  environ s !! "POLLINATION_API_KEY" = Some k →
  net s = r :: rest →
  let c := {| base_url := "https://api.pollination.cloud";
              headers := {[ "x-pollination-token" := k ]};
              organization := None |} in
  GetUser.script s =
  match json_body r with
  | Some j =>
      (Ok tt, mk_state c (environ s) rest (files s)
                (trace s ++ [client_request c GET "/user" NoBody; EvPrint (PValue j)]))
  | None =>
      (Raise JSONDecodeError,
       mk_state c (environ s) rest (files s)
         (trace s ++ [client_request c GET "/user" NoBody]))
  end.
Proof.
  intros Hk Hnet c. subst c.
  unfold GetUser.script, environ_get, Client_init, Client_get, Client_request,
    emit, receive, json, print, emit.
  munfold. unfold set_self, set_trace, set_net, mk_state. simpl.
  rewrite Hk. simpl. rewrite Hnet. simpl.
  destruct (json_body r) as [j|]; simpl; [rewrite <- app_assoc|]; reflexivity.
Qed.

(** ** Payloads that can be sent *)

Section Serialisable.
Context `{Queenbee}.
Import Payload.

Lemma asdict_inner_arguments (groups : list (list JobPathArgument)) :
  forallb serialisable
    (map asdict_inner (map (fun g => VList (map VArg g)) groups)) =
  forallb (fun g => match g with [] => true | _ :: _ => false end) groups.
Proof.
  induction groups as [|g groups IH]; [reflexivity|].
  simpl. rewrite IH. destruct g; reflexivity.
Qed.

Lemma serialised_arguments (groups : list (list JobPathArgument)) :
  (∀ a, serialisable (arg_to_dict a) = true) →
  forallb serialisable (map (fun g => VList (map arg_to_dict g)) groups) = true.
Proof.
  intros Hq. induction groups as [|g groups IH]; [reflexivity|].
  simpl. rewrite IH, andb_true_r.
  induction g as [|a g IHg]; [reflexivity|]. simpl. rewrite Hq. exact IHg.
Qed.

(** X13. When queenbee serialises each argument to plain data, the dict
    [Job.to_dict] returns is plain data throughout, for any job; [asdict]
    alone is not, as soon as one group has an argument, since it copies the
    argument objects as they are.  The flat payloads are always plain
    data. *)
Theorem job_to_dict_is_plain_data (job : Job) (c : Create) (f : RecipeFilter)
    (a : Artifact) :
  (∀ x, serialisable (arg_to_dict x) = true) →
  serialisable (Job_to_dict job) = true ∧
  serialisable (asdict job) =
    forallb (fun g => match g with [] => true | _ :: _ => false end) (arguments job) ∧
  serialisable (to_dict c) = true ∧
  serialisable (to_dict f) = true ∧
  serialisable (to_dict a) = true.
Proof.
  intros Hq. split; [|split; [|repeat split]].
  - unfold Job_to_dict. rewrite args_loop_app. simpl.
    rewrite (serialised_arguments _ Hq). reflexivity.
  - unfold asdict. simpl. rewrite asdict_inner_arguments, andb_true_r. reflexivity.
Qed.
End Serialisable.

(** ** The further properties in the example worlds *)

(** X4, witness: an error response comes back as it is. *)
Lemma methods_return_the_reply_witness :
  let s := Example.ready [Example.reply 500 None] in
  PollinationClient.get_job Example.project_name (VStr "J1") s =
  (Ok (Example.reply 500 None),
   advance s [] [client_request (self s) GET "/projects/acme/good-project/jobs/J1" NoBody]).
Proof.
  intros s.
  destruct (@methods_return_the_reply queenbee_to_dict s "acme" eq_refl
              Example.project_name "good-project" (VStr "J1") "J1" (VStr "R1") "R1"
              (VStr "out") "out" (VStr "grid/room.res") "grid/room.res"
              eq_refl eq_refl eq_refl eq_refl eq_refl
              (Example.reply 500 None) [] eq_refl
              Main.project Main.recipe_filter
              {| Payload.source := "src"; Payload.arguments := [] |})
    as (_ & _ & _ & _ & E & _).
  exact E.
Defined.

(** X5, witness: the service answers the announcement with an error. *)
Lemma upload_needs_signed_url_witness :
  let denied := Example.reply 404 (Some (VDict [("detail", VStr "Not found")])) in
  let s := Example.ready [denied; Example.reply 204 None] in
  fst (@PollinationClient.add_file_to_project raise_for_status_current
         Example.project_name Example.model1 s) = Raise (KeyError "url") ∧
  net (snd (@PollinationClient.add_file_to_project raise_for_status_current
              Example.project_name Example.model1 s)) = [Example.reply 204 None].
Proof.
  intros denied s.
  rewrite (@upload_needs_signed_url raise_for_status_current s "acme"
             Example.project_name "good-project" Example.model1 denied
             [Example.reply 204 None] (KeyError "url") eq_refl eq_refl eq_refl eq_refl).
  split; reflexivity.
Defined.


(** X7, witness: the third status reply has no ['status']. *)
Lemma unreadable_status_stops_the_script_witness :
  let s := Example.ready [Example.status_reply "Running"; Example.status_reply "Running";
                          Example.reply 200 (Some (VDict [])); Example.listing] in
  fst (Main.await_job Example.project_name (VStr "J1") s) = Raise (KeyError "status") ∧
  net (snd (Main.await_job Example.project_name (VStr "J1") s)) = [Example.listing].
Proof.
  intros s.
  destruct (unreadable_status_stops_the_script s "acme" Example.project_name
              "good-project" (VStr "J1") "J1"
              [Example.status_reply "Running"; Example.status_reply "Running"]
              (Example.reply 200 (Some (VDict []))) [Example.listing] (KeyError "status")
              eq_refl eq_refl eq_refl eq_refl)
    as (_ & E); [simpl; lia | reflexivity | reflexivity |].
  rewrite E. split; reflexivity.
Defined.

(** X8, witness: the job is cancelled at the second check. *)
Lemma cancelled_job_ends_the_script_witness :
  let s := Example.ready [Example.status_reply "Running";
                          Example.status_reply "Cancelled"; Example.listing] in
  fst (Main.await_job Example.project_name (VStr "J1") s) = Raise SystemExit ∧
  net (snd (Main.await_job Example.project_name (VStr "J1") s)) = [Example.listing].
Proof.
  intros s.
  rewrite (cancelled_job_ends_the_script s "acme" Example.project_name "good-project"
             (VStr "J1") "J1" [Example.status_reply "Running"]
             (Example.status_reply "Cancelled") [Example.listing]
             eq_refl eq_refl eq_refl eq_refl);
    [split; reflexivity | simpl; lia | reflexivity | reflexivity].
Defined.

(** X9, witness: the second run has no outputs yet. *)
Lemma download_stops_at_unreadable_run_witness :
  let s := Example.ready [Example2.two_runs; Example.link; Example.reply 200 None] in
  fst (Main.download_outputs Example.project_name (VStr "J1") s) = Raise IndexError ∧
  files (snd (Main.download_outputs Example.project_name (VStr "J1") s)) !! "R1-out.zip"
    = Some "data".
Proof.
  intros s.
  assert (Hruns : Forall consistent [Example.first_run])
    by (constructor; [repeat split; reflexivity | constructor]).
  rewrite (download_stops_at_unreadable_run "acme" Example.project_name "good-project"
             eq_refl s (VStr "J1") "J1" Example2.two_runs
             (VDict [("resources", VList [Example.run "R1" "out"; Example2.no_outputs])])
             [Example.first_run] Example2.no_outputs [] [] IndexError
             eq_refl eq_refl eq_refl eq_refl Hruns eq_refl eq_refl).
  split; reflexivity.
Defined.

(** X10, witness: the two models of the script. *)
Lemma upload_loop_builds_arguments_witness :
  let s := Example.ready [Example.signed; Example.reply 204 None;
                          Example.signed; Example.reply 204 None] in
  fst (@Main.upload_loop raise_for_status_current Main.file_names [] s) =
  Ok [[model_argument "model1.hbjson"]; [model_argument "model2.hbjson"]].
Proof.
  intros s.
  assert (Hus : Forall (uploadable (files s)) [Example2.upload1; Example2.upload2])
    by (repeat constructor).
  exact (f_equal fst
           (@upload_loop_builds_arguments raise_for_status_current
              [Example2.upload1; Example2.upload2] s "acme" [] []
              eq_refl Hus eq_refl)).
Defined.

(** X11, witness. *)
Lemma main_submits_job_witness :
  let replies := [Example.reply 201 (Some VNone); Example.reply 201 (Some VNone);
                  Example.signed; Example.reply 204 None;
                  Example.signed; Example.reply 204 None;
                  Example2.job_reply; Example.status_reply "Completed";
                  Example.listing; Example.link; Example.reply 200 None] in
  let s := Example.world Example.both_variables replies in
  fst (@Main.main raise_for_status_current queenbee_to_dict s) = Ok tt ∧
  through_client (trace (snd (@Main.main raise_for_status_current queenbee_to_dict s)))
    = 8%nat.
Proof.
  intros replies s.
  assert (Hus : Forall (uploadable (files s)) [Example2.upload1; Example2.upload2])
    by (repeat constructor).
  rewrite (@main_submits_job raise_for_status_current queenbee_to_dict s "secret" "acme"
             (Example.reply 201 (Some VNone)) (Example.reply 201 (Some VNone))
             Example2.job_reply VNone VNone (VDict [("id", VStr "J1")]) (VStr "J1")
             [Example2.upload1; Example2.upload2]
             [Example.status_reply "Completed"; Example.listing; Example.link;
              Example.reply 200 None]
             eq_refl eq_refl eq_refl eq_refl eq_refl Hus eq_refl eq_refl eq_refl).
  split; vm_compute; reflexivity.
Defined.

(** X12, witness: only the API key is set. *)
Lemma get_user_sends_one_request_witness :
  let s := Example.world Example.only_api_key [Example.reply 401 (Some VNone)] in
  fst (GetUser.script s) = Ok tt ∧
  through_client (trace (snd (GetUser.script s))) = 1%nat.
Proof.
  intros s.
  rewrite (get_user_sends_one_request s "secret" (Example.reply 401 (Some VNone)) []
             eq_refl eq_refl).
  split; reflexivity.
Defined.

(** X13, witness: queenbee's shape of an argument. *)
Lemma job_to_dict_is_plain_data_witness :
  let job := {| Payload.source := recipe_source_url;
                Payload.arguments := [[model_argument "model1.hbjson"]] |} in
  serialisable (@Payload.Job_to_dict queenbee_to_dict job) = true ∧
  serialisable (Payload.asdict job) = false.
Proof.
  intros job.
  destruct (@job_to_dict_is_plain_data queenbee_to_dict job Main.project
              Main.recipe_filter Example.model1 (fun x => eq_refl))
    as (E1 & E2 & _).
  split; [exact E1 | rewrite E2; reflexivity].
Defined.

(** ** Where requests go *)

Section Anchored.
Context `{Httpx} `{Queenbee}.
Import PollinationClient.

Lemma anchored_silent {A} (m : M A) : silent m → anchored m.
Proof.
  intros Hm s. rewrite Hm. split; [reflexivity|].
  exists []. rewrite Hm, app_nil_r. split; [reflexivity | constructor].
Qed.

Lemma anchored_bind {A B} (m : M A) (f : A → M B) :
  anchored m → (∀ a, anchored (f a)) → anchored (m ≫= f).
Proof.
  intros Hm Hf s. rewrite bind_eq.
  destruct (Hm s) as (Hself & evs & Htrace & Hsent).
  destruct (m s) as [[a|e] s1]; simpl in Hself, Htrace.
  - destruct (Hf a s1) as (Hself' & evs' & Htrace' & Hsent').
    split; [congruence|]. exists (evs ++ evs'). split.
    + rewrite Htrace', Htrace, app_assoc. reflexivity.
    + apply Forall_app. split; [exact Hsent|]. rewrite <- Hself. exact Hsent'.
  - split; [exact Hself|]. exists evs. split; assumption.
Qed.

Lemma anchored_Client_request m endpoint b : anchored (Client_request m endpoint b).
Proof.
  intros s. unfold Client_request, receive, emit. munfold. simpl.
  destruct (net s) as [|r rest]; simpl;
    (split; [reflexivity|]; eexists; split; [reflexivity|];
     constructor; [intros _; reflexivity | constructor]).
Qed.

Lemma anchored_Artifact_upload body url fields :
  anchored (Artifact_upload body url fields).
Proof.
  intros s. unfold Artifact_upload, httpx_post, receive, emit. munfold. simpl.
  destruct (files s !! Payload.key body) as [data|]; simpl.
  - destruct url; simpl;
      try (split; [reflexivity|]; exists [EvOpen (Payload.key body)];
           split; [reflexivity|]; repeat constructor).
    destruct (net s) as [|r rest]; simpl;
      (split; [reflexivity|]; eexists; split; [rewrite <- app_assoc; reflexivity|];
       constructor; [exact I|]; constructor; [discriminate | constructor]).
  - split; [reflexivity|]. exists []. rewrite app_nil_r. split; [reflexivity|constructor].
Qed.

(** A method that formats an endpoint and sends one request. *)
Lemma anchored_one_request {A} (endpoint : M string) (send : string → M A) :
  silent endpoint → (∀ e, anchored (send e)) → anchored (endpoint ≫= send).
Proof. intros He Hs. apply anchored_bind; [apply anchored_silent, He | exact Hs]. Qed.

Ltac silent_endpoint' :=
  repeat first [ apply silent_self_organization | silent_step ].

Ltac anchored_request :=
  apply anchored_one_request;
  [ silent_endpoint' | intros ?; apply anchored_Client_request ].

Lemma anchored_perform c : anchored (perform c).
Proof.
  destruct c; unfold perform;
    (apply anchored_bind; [|intros ?; apply anchored_silent, silent_ret]).
  - unfold get_organization, org_endpoint, Client_get. anchored_request.
  - unfold create_project, create_project_endpoint, Client_post. anchored_request.
  - unfold add_recipe_to_project, add_recipe_to_project_endpoint, Client_post.
    anchored_request.
  - unfold add_file_to_project.
    apply anchored_bind;
      [apply anchored_silent; unfold add_file_to_project_endpoint; silent_endpoint'|].
    intros endpoint. apply anchored_bind; [apply anchored_Client_request|].
    intros res. apply anchored_bind; [apply anchored_silent, silent_json|].
    intros res_body. apply anchored_bind; [apply anchored_silent, silent_lift|].
    intros url. apply anchored_bind; [apply anchored_silent, silent_lift|].
    intros fields. apply anchored_bind; [apply anchored_Artifact_upload|].
    intros res'. apply anchored_silent.
    destruct (status_code res' =? 204); silent_step.
  - unfold create_job, create_job_endpoint, Client_post. anchored_request.
  - unfold get_job, get_job_endpoint, Client_get. anchored_request.
  - unfold list_jobs, list_jobs_endpoint, Client_get. anchored_request.
  - unfold list_job_artifacts, list_job_artifacts_endpoint, Client_get.
    anchored_request.
  - unfold get_job_artifact_link, get_job_artifact_link_endpoint, Client_get.
    anchored_request.
  - unfold get_runs, get_runs_endpoint, Client_get. anchored_request.
  - unfold get_run_output, get_run_output_endpoint, Client_get. anchored_request.
Qed.

Lemma session_anchored cs s :
  self (session cs s) = self s ∧
  ∃ evs, trace (session cs s) = trace s ++ evs ∧ Forall (addressed_to (self s)) evs.
Proof.
  revert s. induction cs as [|c cs IH]; intros s; simpl.
  - split; [reflexivity|]. exists []. split; [symmetry; apply app_nil_r | constructor].
  - destruct (anchored_perform c s) as (Hself & evs & Htrace & Hsent).
    destruct (IH (snd (perform c s))) as (Hself' & evs' & Htrace' & Hsent').
    split; [congruence|]. exists (evs ++ evs'). split.
    + rewrite Htrace', Htrace, app_assoc. reflexivity.
    + apply Forall_app. split; [exact Hsent|]. rewrite <- Hself. exact Hsent'.
Qed.

(** X14. However the client was constructed, a [base_url] keyword argument
    included, no sequence of endpoint calls changes the client object, and
    every request the calls send through it is addressed to
    ['https://api.pollination.cloud']. *)
Theorem requests_go_to_the_api (kw : kwargs) (s0 s : state) (cs : list call) :
  init kw s0 = (Ok tt, s) →
  self (session cs s) = self s ∧
  ∃ evs, trace (session cs s) = trace s0 ++ evs ∧ Forall goes_to_api evs.
Proof.
  rewrite init_eq. intros Hinit.
  destruct (environ s0 !! "POLLINATION_API_KEY") as [k|]; [|discriminate].
  destruct (environ s0 !! "POLLINATION_ORG") as [o|]; [|discriminate].
  injection Hinit as <-.
  destruct (session_anchored cs (set_self (constructed kw (Some k) (Some o)) s0))
    as (Hself & evs & Htrace & Hsent).
  split; [exact Hself|]. exists evs. split; [exact Htrace|].
  eapply Forall_impl; [exact Hsent|]. intros [r| | | |]; simpl; tauto.
Qed.
End Anchored.

(** X14, witness: a caller asks for another host. *)
Lemma requests_go_to_the_api_witness :
  let kw := {| kw_headers := None; kw_base_url := Some "https://elsewhere.example" |} in
  let replies := [Example.status_reply "Running"; Example.signed;
                  Example.reply 204 None] in
  let calls := [GetJob Example.project_name (VStr "J1");
                AddFileToProject Example.project_name Example.model1] in
  let s := Example.ready replies in
  self (@session raise_for_status_current queenbee_to_dict calls s) = self s ∧
  ∃ evs, trace (@session raise_for_status_current queenbee_to_dict calls s)
         = trace (Example.world Example.both_variables replies) ++ evs ∧
         Forall goes_to_api evs.
Proof.
  intros kw replies calls s.
  apply (@requests_go_to_the_api raise_for_status_current queenbee_to_dict kw
           (Example.world Example.both_variables replies) s calls).
  vm_compute. reflexivity.
Defined.
